(** * PSANet (pywick/models/segmentation/testnets/psanet.py)

    A shallow embedding of the point-wise spatial attention network:
    tensors are a shape together with their contiguous row-major storage,
    tensor operations that raise in PyTorch return [Raise], and the
    learned layers are records holding their configuration and their
    learned function.  Arithmetic is over the real numbers. *)

From Stdlib Require Import ZArith Reals List Lia Lra String Bool.
Import ListNotations.
Open Scope Z_scope.

(** ** Errors and the result monad *)

Inductive error : Type :=
| ShapeMismatch   (* RuntimeError raised by a tensor operation *)
| ValueError      (* failed tuple unpacking *)
| IndexError      (* dimension or position out of range *)
| AttributeError. (* missing submodule *)

Inductive result (A : Type) : Type :=
| Ok (a : A)
| Raise (e : error).
Arguments Ok {A} a.
Arguments Raise {A} e.

Definition bind {A B : Type} (c : result A) (k : A -> result B) : result B :=
  match c with
  | Ok a => k a
  | Raise e => Raise e
  end.

Notation "x <- c ;; k" := (bind c (fun x => k))
  (at level 61, c at next level, right associativity).

Definition returns {A : Type} (c : result A) : Prop := exists a, c = Ok a.

(** ** Tensors *)

Record tensor : Type := mkTensor {
  shape : list Z;      (* torch.Size *)
  data : Z -> R        (* contiguous storage, row-major offset *)
}.

Definition prod (l : list Z) : Z := fold_right Z.mul 1 l.

Definition numel (t : tensor) : Z := prod (shape t).

Definition zeros (s : list Z) : tensor := mkTensor s (fun _ => 0%R).

(** Element access by multi-index for rank 3 and rank 4 tensors. *)
Definition get3 (t : tensor) (b i j : Z) : R :=
  match shape t with
  | [_; n; m] => data t ((b * n + i) * m + j)
  | _ => 0%R
  end.

Definition get4 (t : tensor) (b c y x : Z) : R :=
  match shape t with
  | [_; ch; h; w] => data t (((b * ch + c) * h + y) * w + x)
  | _ => 0%R
  end.

(** [Rsum n f] is f 0 + ... + f (n-1). *)
Fixpoint Rsum (n : nat) (f : Z -> R) : R :=
  match n with
  | O => 0%R
  | S k => (Rsum k f + f (Z.of_nat k))%R
  end.

Definition sumZ (n : Z) (f : Z -> R) : R := Rsum (Z.to_nat n) f.

Fixpoint list_eqb (a b : list Z) : bool :=
  match a, b with
  | [], [] => true
  | x :: a', y :: b' => (x =? y) && list_eqb a' b'
  | _, _ => false
  end.

(** ** Tensor operations of the framework *)

Module torch.

(** [x.size()] unpacked into four names. *)
Definition size4 (t : tensor) : result (Z * Z * Z * Z) :=
  match shape t with
  | [n; c; h; w] => Ok (n, c, h, w)
  | _ => Raise ValueError
  end.

(** [t.view(dims)]: the storage is kept, the shape is replaced; a single
    [-1] is inferred from the number of elements. *)
Definition view (t : tensor) (dims : list Z) : result tensor :=
  let known := prod (filter (fun d => negb (d =? -1)) dims) in
  match List.length (filter (fun d => d =? -1) dims) with
  | O =>
      if forallb (fun d => 0 <=? d) dims && (prod dims =? numel t)
      then Ok (mkTensor dims (data t))
      else Raise ShapeMismatch
  | S O =>
      if forallb (fun d => -1 <=? d) dims
         && negb (known =? 0) && (numel t mod known =? 0)
      then Ok (mkTensor
                 (map (fun d => if d =? -1 then numel t / known else d) dims)
                 (data t))
      else Raise ShapeMismatch
  | _ => Raise ShapeMismatch
  end.

(** [torch.bmm(a, b)]: (B,n,m) x (B,m,p) -> (B,n,p). *)
Definition bmm (a b : tensor) : result tensor :=
  match shape a, shape b with
  | [ba; n; m], [bb; m'; p] =>
      if (ba =? bb) && (m =? m')
      then Ok (mkTensor [ba; n; p]
                 (fun o =>
                    let bi := o / (n * p) in
                    let i := (o / p) mod n in
                    let j := o mod p in
                    sumZ m (fun k =>
                      (data a ((bi * n + i) * m + k)
                       * data b ((bi * m + k) * p + j))%R)))
      else Raise ShapeMismatch
  | _, _ => Raise ShapeMismatch
  end.

(** [torch.softmax(t, dim)]. *)
Definition softmax (t : tensor) (dim : nat) : result tensor :=
  if (dim <? List.length (shape t))%nat
  then
    let c := nth dim (shape t) 1 in
    let inner := prod (skipn (S dim) (shape t)) in
    Ok (mkTensor (shape t)
          (fun o =>
             let outer := o / (c * inner) in
             let r := o mod inner in
             (exp (data t o)
              / sumZ c (fun k => exp (data t ((outer * c + k) * inner + r))))%R))
  else Raise IndexError.

(** [torch.cat([a, b], dim)]. *)
Definition cat2 (a b : tensor) (dim : nat) : result tensor :=
  let sa := shape a in
  let sb := shape b in
  if (dim <? List.length sa)%nat
     && (List.length sa =? List.length sb)%nat
     && list_eqb (firstn dim sa) (firstn dim sb)
     && list_eqb (skipn (S dim) sa) (skipn (S dim) sb)
  then
    let ca := nth dim sa 0 in
    let cb := nth dim sb 0 in
    let inner := prod (skipn (S dim) sa) in
    Ok (mkTensor (firstn dim sa ++ [ca + cb] ++ skipn (S dim) sa)
          (fun o =>
             let outer := o / ((ca + cb) * inner) in
             let c := (o / inner) mod (ca + cb) in
             let r := o mod inner in
             if c <? ca
             then data a ((outer * ca + c) * inner + r)
             else data b ((outer * cb + (c - ca)) * inner + r)))
  else Raise ShapeMismatch.

Definition cat (ts : list tensor) (dim : nat) : result tensor :=
  match ts with
  | [] => Raise ShapeMismatch
  | t :: rest =>
      fold_left (fun acc u => a <- acc ;; cat2 a u dim) rest (Ok t)
  end.

End torch.

(** The run-time context of a forward pass: the module mode
    ([model.train()] / [model.eval()]) and the random draws consumed by
    the dropout layers ([true] keeps a channel). *)
Record env : Type := mkEnv {
  training : bool;
  drop_head : Z -> bool;
  drop_aux : Z -> bool
}.

Module F.

(** Source coordinate of output index [y], as a fraction [num/den]. *)
Definition src_index (align_corners : bool) (isz osz y : Z) : Z * Z :=
  if align_corners
  then if 1 <? osz then (y * (isz - 1), osz - 1) else (0, 1)
  else (Z.max 0 ((2 * y + 1) * isz - osz), 2 * osz).

(** [F.interpolate(t, size, mode='bilinear', align_corners=...)]. *)
Definition interpolate (t : tensor) (size : list Z) (align_corners : bool)
  : result tensor :=
  match shape t, size with
  | [n; c; ih; iw], [oh; ow] =>
      if (0 <? ih) && (0 <? iw) && (0 <? oh) && (0 <? ow)
      then Ok (mkTensor [n; c; oh; ow]
                 (fun o =>
                    let bc := o / (oh * ow) in
                    let y := (o / ow) mod oh in
                    let x := o mod ow in
                    let '(ny, dy) := src_index align_corners ih oh y in
                    let '(nx, dx) := src_index align_corners iw ow x in
                    let y0 := ny / dy in
                    let x0 := nx / dx in
                    let y1 := if y0 <? ih - 1 then y0 + 1 else y0 in
                    let x1 := if x0 <? iw - 1 then x0 + 1 else x0 in
                    let ly := (IZR (ny mod dy) / IZR dy)%R in
                    let lx := (IZR (nx mod dx) / IZR dx)%R in
                    let v yy xx := data t ((bc * ih + yy) * iw + xx) in
                    ((1 - ly) * ((1 - lx) * v y0 x0 + lx * v y0 x1)
                     + ly * ((1 - lx) * v y1 x0 + lx * v y1 x1))%R))
      else Raise ShapeMismatch
  | _, _ => Raise ShapeMismatch
  end.

End F.

Module nn.

(** [nn.Conv2d(in_channels, out_channels, 1, bias=...)]: both uses in
    psanet.py have kernel size 1, which is what is modelled.  The
    convolution needs at least one output channel (the weight's first
    dimension), and takes a batched (N, C, H, W) or an unbatched
    (C, H, W) input. *)
Record Conv2d : Type := mkConv2d {
  in_channels : Z;
  out_channels : Z;
  weight : Z -> Z -> R;          (* weight[o][i] *)
  bias : option (Z -> R)
}.

(** Entry at row-major offset [o] of the output, for an input with [c]
    channels and planes of [hw] positions. *)
Definition Conv2d_entry (l : Conv2d) (x : tensor) (c hw o : Z) : R :=
  let b := o / (out_channels l * hw) in
  let oc := (o / hw) mod out_channels l in
  let r := o mod hw in
  ((match bias l with Some bv => bv oc | None => 0 end)
   + sumZ c (fun i => weight l oc i * data x ((b * c + i) * hw + r)))%R.

Definition Conv2d_forward (l : Conv2d) (x : tensor) : result tensor :=
  if out_channels l <? 1
  then Raise ShapeMismatch
  else
    match shape x with
    | [n; c; h; w] =>
        if c =? in_channels l
        then Ok (mkTensor [n; out_channels l; h; w]
                   (Conv2d_entry l x c (h * w)))
        else Raise ShapeMismatch
    | [c; h; w] =>
        if c =? in_channels l
        then Ok (mkTensor [out_channels l; h; w]
                   (Conv2d_entry l x c (h * w)))
        else Raise ShapeMismatch
    | _ => Raise ShapeMismatch
    end.

(** [nn.Dropout2d(p, inplace)]: in training mode whole channels are
    zeroed by the drawn mask and the others scaled by 1/(1-p); in
    evaluation mode the input is returned as it is. *)
Record Dropout2d : Type := mkDropout2d {
  p : R;
  inplace : bool
}.

Definition Dropout2d_forward (l : Dropout2d) (train : bool) (mask : Z -> bool)
    (x : tensor) : tensor :=
  if train
  then mkTensor (shape x)
         (fun o =>
            let plane := prod (skipn 2 (shape x)) in
            if mask (o / plane) then (data x o / (1 - p l))%R else 0%R)
  else x.

End nn.

(** ** Collaborators defined outside psanet.py *)

(** Modelled from the spec: [_ConvBNReLU] (da_basenets/basic.py) is the
    "convolution + normalization + activation" block.  Its configuration
    is the one passed at the call sites (channels, kernel size, padding;
    stride 1); the learned convolution, normalization statistics and the
    activation are the opaque function [cbr_fn], which may depend on the
    module mode. *)
Record _ConvBNReLU : Type := mk_ConvBNReLU {
  cbr_in : Z;
  cbr_out : Z;
  cbr_kernel : Z;
  cbr_padding : Z;
  cbr_fn : bool -> tensor -> Z -> R
}.

Definition _ConvBNReLU_forward (l : _ConvBNReLU) (train : bool) (x : tensor)
  : result tensor :=
  match shape x with
  | [n; c; h; w] =>
      if c =? cbr_in l
      then Ok (mkTensor [n; cbr_out l;
                         h + 2 * cbr_padding l - cbr_kernel l + 1;
                         w + 2 * cbr_padding l - cbr_kernel l + 1]
                 (cbr_fn l train x))
      else Raise ShapeMismatch
  | _ => Raise ShapeMismatch
  end.

(** Modelled from the spec: [_FCNHead] (da_basenets/fcn.py) is the
    auxiliary head, an external collaborator mapping a feature map with
    [fcn_in] channels to per-class scores on the same grid.  Its learned
    function may consume dropout draws. *)
Record _FCNHead : Type := mk_FCNHead {
  fcn_in : Z;
  fcn_channels : Z;
  fcn_fn : bool -> (Z -> bool) -> tensor -> Z -> R
}.

Definition _FCNHead_forward (l : _FCNHead) (e : env) (x : tensor)
  : result tensor :=
  match shape x with
  | [n; c; h; w] =>
      if c =? fcn_in l
      then Ok (mkTensor [n; fcn_channels l; h; w]
                 (fcn_fn l (training e) (drop_aux e) x))
      else Raise ShapeMismatch
  | _ => Raise ShapeMismatch
  end.

(** Modelled from the spec: [SegBaseModel] (da_basenets/segbase.py) owns
    the backbone, a black box producing the multi-scale feature maps
    c1..c4 in [base_forward]. *)
Definition features : Type := (tensor * tensor * tensor * tensor)%type.

Record SegBaseModel : Type := mkSegBaseModel {
  nclass : Z;
  aux : bool;
  backbone : string;
  pretrained : bool -> tensor -> result features
}.

Definition base_forward (m : SegBaseModel) (e : env) (x : tensor)
  : result features :=
  pretrained m (training e) x.

(** The backbone's contract as the spec gives it: on an image batch whose
    height and width are multiples of the stride, c3 has 1024 channels
    and c4 has 2048 channels, both on the downsampled grid. *)
Definition backbone_contract (stride : Z) (m : SegBaseModel) : Prop :=
  forall e x n h w,
    shape x = [n; 3; h; w] ->
    0 < n -> 0 < h -> 0 < w ->
    (stride | h) -> (stride | w) ->
    exists c1 c2 c3 c4,
      base_forward m e x = Ok (c1, c2, c3, c4)
      /\ shape c3 = [n; 1024; h / stride; w / stride]
      /\ shape c4 = [n; 2048; h / stride; w / stride].

(** ** Learned parameters

    Each constructor call in psanet.py creates the parameters of the
    layer it builds.  The embedding passes them to the constructors
    explicitly. *)

Record attention_params : Type := mkAttentionParams {
  reduce_fn : bool -> tensor -> Z -> R;       (* conv_reduce *)
  attention_fn : bool -> tensor -> Z -> R;    (* attention[0] *)
  attention_weight : Z -> Z -> R              (* attention[1] *)
}.

Record head_params : Type := mkHeadParams {
  collect_params : attention_params;
  distribute_params : attention_params;
  conv_post_fn : bool -> tensor -> Z -> R;
  project_fn : bool -> tensor -> Z -> R;      (* project[0] *)
  classifier_weight : Z -> Z -> R;            (* project[2] *)
  classifier_bias : Z -> R
}.

Record params : Type := mkParams {
  zoo : string -> bool -> bool -> tensor -> result features;
  head_p : head_params;
  aux_fn : bool -> (Z -> bool) -> tensor -> Z -> R
}.

Definition SegBaseModel_init (theta : params) (nclass : Z) (aux : bool)
    (backbone : string) (pretrained : bool) : SegBaseModel :=
  mkSegBaseModel nclass aux backbone (zoo theta backbone pretrained).

Notation "' pat <- c ;; k" :=
  (bind c (fun x => match x with pat => k end))
  (at level 61, pat pattern, c at next level, right associativity).

(** ** psanet.py *)

Module _AttentionGeneration.

Record t : Type := mk {
  conv_reduce : _ConvBNReLU;
  attention : _ConvBNReLU * nn.Conv2d;     (* nn.Sequential *)
  reduced_channels : Z
}.

Definition __init__ (in_channels reduced_channels out_channels : Z)
    (w : attention_params) : t :=
  {| conv_reduce :=
       mk_ConvBNReLU in_channels reduced_channels 1 0 (reduce_fn w);
     attention :=
       (mk_ConvBNReLU reduced_channels reduced_channels 1 0 (attention_fn w),
        nn.mkConv2d reduced_channels out_channels (attention_weight w) None);
     reduced_channels := reduced_channels |}.

Definition attention_forward (self : t) (e : env) (x : tensor)
  : result tensor :=
  y <- _ConvBNReLU_forward (fst (attention self)) (training e) x ;;
  nn.Conv2d_forward (snd (attention self)) y.

Definition forward (self : t) (e : env) (x : tensor) : result tensor :=
  reduce_x <- _ConvBNReLU_forward (conv_reduce self) (training e) x ;;
  attention <- attention_forward self e reduce_x ;;
  '(n, c, h, w) <- torch.size4 attention ;;
  attention <- torch.view attention [n; c; -1] ;;
  reduce_x <- torch.view reduce_x [n; reduced_channels self; -1] ;;
  weights <- torch.softmax attention 1 ;;
  fm <- torch.bmm reduce_x weights ;;
  fm <- torch.view fm [n; reduced_channels self; h; w] ;;
  Ok fm.

End _AttentionGeneration.

Module _PointwiseSpatialAttention.

Record t : Type := mk {
  collect_attention : _AttentionGeneration.t;
  distribute_attention : _AttentionGeneration.t
}.

Definition __init__ (in_channels out_channels : Z)
    (collect distribute : attention_params) : t :=
  let reduced_channels := 512 in
  {| collect_attention :=
       _AttentionGeneration.__init__
         in_channels reduced_channels out_channels collect;
     distribute_attention :=
       _AttentionGeneration.__init__
         in_channels reduced_channels out_channels distribute |}.

Definition forward (self : t) (e : env) (x : tensor) : result tensor :=
  collect_fm <- _AttentionGeneration.forward (collect_attention self) e x ;;
  distribute_fm <-
    _AttentionGeneration.forward (distribute_attention self) e x ;;
  psa_fm <- torch.cat [collect_fm; distribute_fm] 1 ;;
  Ok psa_fm.

End _PointwiseSpatialAttention.

Module _PSAHead.

Record t : Type := mk {
  psa : _PointwiseSpatialAttention.t;
  conv_post : _ConvBNReLU;
  project : _ConvBNReLU * nn.Dropout2d * nn.Conv2d   (* nn.Sequential *)
}.

Definition __init__ (nclass : Z) (w : head_params) : t :=
  {| psa :=
       _PointwiseSpatialAttention.__init__ 2048 3600
         (collect_params w) (distribute_params w);
     conv_post := mk_ConvBNReLU 1024 2048 1 0 (conv_post_fn w);
     project :=
       (mk_ConvBNReLU 4096 512 3 1 (project_fn w),
        nn.mkDropout2d (1 / 10)%R false,
        nn.mkConv2d 512 nclass (classifier_weight w)
          (Some (classifier_bias w))) |}.

Definition project_forward (self : t) (e : env) (x : tensor)
  : result tensor :=
  let '(conv, drop, cls) := project self in
  y <- _ConvBNReLU_forward conv (training e) x ;;
  let y := nn.Dropout2d_forward drop (training e) (drop_head e) y in
  nn.Conv2d_forward cls y.

Definition forward (self : t) (e : env) (x : tensor) : result tensor :=
  global_feature <- _PointwiseSpatialAttention.forward (psa self) e x ;;
  out <- _ConvBNReLU_forward (conv_post self) (training e) global_feature ;;
  out <- torch.cat [x; out] 1 ;;
  out <- project_forward self e out ;;
  Ok out.

End _PSAHead.

(** What [PSANet.forward] returns: one tensor, or a tuple of tensors. *)
Inductive output : Type :=
| Single (t : tensor)
| Tuple (ts : list tensor).

Definition primary (o : output) : option tensor :=
  match o with
  | Single t => Some t
  | Tuple ts => nth_error ts 0
  end.

Module PSANet.

Record t : Type := mk {
  base : SegBaseModel;                  (* the inherited part *)
  head : _PSAHead.t;
  auxlayer : option _FCNHead;           (* attribute set only if aux *)
  exclusive : list string
}.

Definition __init__ (theta : params) (nclass : Z) (backbone : string)
    (aux : bool) (pretrained_base : bool) : t :=
  {| base := SegBaseModel_init theta nclass aux backbone pretrained_base;
     head := _PSAHead.__init__ nclass (head_p theta);
     auxlayer :=
       if aux then Some (mk_FCNHead 1024 nclass (aux_fn theta)) else None;
     exclusive :=
       if aux then ["head"; "auxlayer"]%string else ["head"]%string |}.

Definition get_auxlayer (self : t) : result _FCNHead :=
  match auxlayer self with
  | Some l => Ok l
  | None => Raise AttributeError
  end.

Definition forward (self : t) (e : env) (x : tensor) : result output :=
  let size := skipn 2 (shape x) in
  '(_, _, c3, c4) <- base_forward (base self) e x ;;
  let outputs := [] in
  x <- _PSAHead.forward (head self) e c4 ;;
  x <- F.interpolate x size true ;;
  let outputs := outputs ++ [x] in
  if aux (base self)
  then
    auxlayer <- get_auxlayer self ;;
    auxout <- _FCNHead_forward auxlayer e c3 ;;
    auxout <- F.interpolate auxout size true ;;
    let outputs := outputs ++ [auxout] in
    Ok (Tuple outputs)
  else
    match nth_error outputs 0 with
    | Some o => Ok (Single o)
    | None => Raise IndexError
    end.

End PSANet.

(** The factory functions; [aux] is the one keyword argument of
    [kwargs] that psanet.py itself reads. *)
Definition get_psanet (theta : params) (num_classes : Z) (backbone : string)
    (pretrained : bool) (aux : bool) : PSANet.t :=
  let model := PSANet.__init__ theta num_classes backbone aux pretrained in
  model.

Definition get_psanet_resnet50 (theta : params) (num_classes : Z)
    (pretrained aux : bool) : PSANet.t :=
  get_psanet theta num_classes "resnet50" pretrained aux.

Definition get_psanet_resnet101 (theta : params) (num_classes : Z)
    (pretrained aux : bool) : PSANet.t :=
  get_psanet theta num_classes "resnet101" pretrained aux.

Definition get_psanet_resnet152 (theta : params) (num_classes : Z)
    (pretrained aux : bool) : PSANet.t :=
  get_psanet theta num_classes "resnet152" pretrained aux.

(** The script at the end of psanet.py: the default model applied to
    one image batch. *)
Definition main (theta : params) (e : env) (img : tensor) : result output :=
  let model := get_psanet_resnet50 theta 1 true false in
  PSANet.forward model e img.

(** ** The attention computation in the words of the specification

    Feature maps are read by multi-index.  Step (c) flattens the spatial
    dimensions, (d) normalizes the attention tensor over its channel
    axis, (e) multiplies the reduced map (reduced_channels x positions)
    by the normalized attention (positions x positions), and (f) reshapes
    the product back to the grid. *)

Module SpecAttention.

Definition map4 : Type := Z -> Z -> Z -> Z -> R.
Definition map3 : Type := Z -> Z -> Z -> R.

Definition flatten (W : Z) (t : map4) : map3 :=
  fun b c j => t b c (j / W) (j mod W).

Definition softmax (positions : Z) (a : map3) : map3 :=
  fun b i j => (exp (a b i j) / sumZ positions (fun k => exp (a b k j)))%R.

Definition bmm (positions : Z) (x s : map3) : map3 :=
  fun b k j => sumZ positions (fun i => (x b k i * s b i j)%R).

Definition reshape (W : Z) (m : map3) : map4 :=
  fun b k y x => m b k (y * W + x).

Definition attention_generation (H W : Z) (reduced attention : map4) : map4 :=
  let positions := H * W in
  reshape W
    (bmm positions (flatten W reduced)
       (softmax positions (flatten W attention))).

End SpecAttention.

(** ** A concrete instance

    All learned functions are constantly zero and the backbone is a
    stand-in that only produces the feature maps of a dilated ResNet
    (output stride 8) with the right shapes. *)

Definition zero_attention_params : attention_params :=
  mkAttentionParams (fun _ _ _ => 0%R) (fun _ _ _ => 0%R) (fun _ _ => 0%R).

Definition zero_head_params : head_params :=
  mkHeadParams zero_attention_params zero_attention_params
    (fun _ _ _ => 0%R) (fun _ _ _ => 0%R) (fun _ _ => 0%R) (fun _ => 0%R).

Definition stride8_backbone (train : bool) (x : tensor) : result features :=
  match shape x with
  | [n; c; h; w] =>
      if c =? 3
      then Ok (zeros [n; 256; h / 4; w / 4],
               zeros [n; 512; h / 8; w / 8],
               zeros [n; 1024; h / 8; w / 8],
               zeros [n; 2048; h / 8; w / 8])
      else Raise ShapeMismatch
  | _ => Raise ShapeMismatch
  end.

Definition zero_params : params :=
  mkParams (fun _ _ => stride8_backbone) zero_head_params
    (fun _ _ _ _ => 0%R).

Definition eval_env : env := mkEnv false (fun _ => true) (fun _ => true).

Definition train_env : env := mkEnv true (fun _ => false) (fun _ => true).

(** ** Index arithmetic of the row-major layout *)

Section Layout.

Lemma decode_outer (b i j c m : Z) :
  0 <= i < c -> 0 <= j < m -> ((b * c + i) * m + j) / (c * m) = b.
Proof.
  intros Hi Hj. symmetry.
  apply (Z.div_unique _ _ b (i * m + j)); [left; nia | ring].
Qed.

Lemma decode_last (q j m : Z) : 0 <= j < m -> (q * m + j) mod m = j.
Proof.
  intros Hj. symmetry.
  apply (Z.mod_unique _ _ q j); [left; lia | ring].
Qed.

Lemma decode_div (q j m : Z) : 0 <= j < m -> (q * m + j) / m = q.
Proof.
  intros Hj. symmetry.
  apply (Z.div_unique _ _ q j); [left; lia | ring].
Qed.

Lemma decode_mid (b i j c m : Z) :
  0 <= i < c -> 0 <= j < m -> (((b * c + i) * m + j) / m) mod c = i.
Proof.
  intros Hi Hj. rewrite decode_div by assumption.
  apply decode_last; assumption.
Qed.

(** A spatial position (y, x) of an h-by-w grid and its flat index. *)
Lemma flat_position_range (y x h w : Z) :
  0 <= y < h -> 0 <= x < w -> 0 <= y * w + x < h * w.
Proof. intros Hy Hx. nia. Qed.

Lemma unflatten_flat (j w : Z) : 0 < w -> (j / w) * w + j mod w = j.
Proof.
  intros Hw. pose proof (Z.div_mod j w ltac:(lia)). lia.
Qed.

End Layout.

(** ** Finite sums *)

Lemma Rsum_ext (n : nat) (f g : Z -> R) :
  (forall k, 0 <= k < Z.of_nat n -> f k = g k) -> Rsum n f = Rsum n g.
Proof.
  induction n as [|n IH]; intros Hfg; [reflexivity|].
  cbn [Rsum]. rewrite IH, (Hfg (Z.of_nat n)); [reflexivity | lia |].
  intros k Hk. apply Hfg. lia.
Qed.

Lemma sumZ_ext (n : Z) (f g : Z -> R) :
  (forall k, 0 <= k < n -> f k = g k) -> sumZ n f = sumZ n g.
Proof.
  intros Hfg. unfold sumZ. apply Rsum_ext. intros k Hk. apply Hfg. lia.
Qed.

Lemma Rsum_scale (n : nat) (f : Z -> R) (c : R) :
  Rsum n (fun k => (f k * c)%R) = (Rsum n f * c)%R.
Proof.
  induction n as [|n IH]; cbn [Rsum]; [ring | rewrite IH; ring].
Qed.

Lemma Rsum_exp_pos (n : nat) (f : Z -> R) :
  (0 < n)%nat -> (0 < Rsum n (fun k => exp (f k)))%R.
Proof.
  induction n as [|n IH]; intros Hn; [lia|].
  cbn [Rsum]. destruct n as [|n].
  - cbn [Rsum]. pose proof (exp_pos (f (Z.of_nat 0))). lra.
  - pose proof (IH ltac:(lia)). pose proof (exp_pos (f (Z.of_nat (S n)))). lra.
Qed.

(** A family of quotients by their own total sums to one. *)
Lemma Rsum_normalized (n : nat) (f : Z -> R) :
  (0 < n)%nat ->
  Rsum n (fun k => (exp (f k) / Rsum n (fun i => exp (f i)))%R) = 1%R.
Proof.
  intros Hn. pose proof (Rsum_exp_pos n f Hn) as Hpos.
  unfold Rdiv. rewrite Rsum_scale. field. lra.
Qed.

(** ** Shapes produced by the layers *)

Lemma ConvBNReLU_forward_ok (l : _ConvBNReLU) (tr : bool) (x : tensor)
    (n h w : Z) :
  shape x = [n; cbr_in l; h; w] ->
  _ConvBNReLU_forward l tr x =
  Ok (mkTensor [n; cbr_out l;
                h + 2 * cbr_padding l - cbr_kernel l + 1;
                w + 2 * cbr_padding l - cbr_kernel l + 1]
        (cbr_fn l tr x)).
Proof.
  intros Hs. unfold _ConvBNReLU_forward. rewrite Hs, Z.eqb_refl. reflexivity.
Qed.

Lemma ConvBNReLU_forward_mismatch (l : _ConvBNReLU) (tr : bool) (x : tensor)
    (n c h w : Z) :
  shape x = [n; c; h; w] -> c <> cbr_in l ->
  _ConvBNReLU_forward l tr x = Raise ShapeMismatch.
Proof.
  intros Hs Hc. unfold _ConvBNReLU_forward. rewrite Hs.
  apply Z.eqb_neq in Hc. rewrite Hc. reflexivity.
Qed.

Lemma Conv2d_forward_ok (l : nn.Conv2d) (x : tensor) (n h w : Z) :
  0 < nn.out_channels l ->
  shape x = [n; nn.in_channels l; h; w] ->
  exists y, nn.Conv2d_forward l x = Ok y
            /\ shape y = [n; nn.out_channels l; h; w].
Proof.
  intros Hout Hs. unfold nn.Conv2d_forward.
  rewrite (proj2 (Z.ltb_ge (nn.out_channels l) 1)) by lia.
  rewrite Hs, Z.eqb_refl.
  eexists. split; reflexivity.
Qed.

Lemma Dropout2d_forward_shape (l : nn.Dropout2d) (tr : bool)
    (mask : Z -> bool) (x : tensor) :
  shape (nn.Dropout2d_forward l tr mask x) = shape x.
Proof. unfold nn.Dropout2d_forward. destruct tr; reflexivity. Qed.

(** In evaluation mode dropout is the identity, whatever was drawn. *)
Lemma Dropout2d_forward_eval (l : nn.Dropout2d) (mask : Z -> bool)
    (x : tensor) :
  nn.Dropout2d_forward l false mask x = x.
Proof. reflexivity. Qed.

Lemma FCNHead_forward_ok (l : _FCNHead) (e : env) (x : tensor) (n h w : Z) :
  shape x = [n; fcn_in l; h; w] ->
  _FCNHead_forward l e x =
  Ok (mkTensor [n; fcn_channels l; h; w]
        (fcn_fn l (training e) (drop_aux e) x)).
Proof.
  intros Hs. unfold _FCNHead_forward. rewrite Hs, Z.eqb_refl. reflexivity.
Qed.

Lemma interpolate_ok (t : tensor) (n c ih iw oh ow : Z) (ac : bool) :
  shape t = [n; c; ih; iw] ->
  0 < ih -> 0 < iw -> 0 < oh -> 0 < ow ->
  exists y, F.interpolate t [oh; ow] ac = Ok y /\ shape y = [n; c; oh; ow].
Proof.
  intros Hs Hih Hiw Hoh How. unfold F.interpolate. rewrite Hs.
  rewrite (proj2 (Z.ltb_lt 0 ih)), (proj2 (Z.ltb_lt 0 iw)),
    (proj2 (Z.ltb_lt 0 oh)), (proj2 (Z.ltb_lt 0 ow)) by assumption.
  eexists. split; reflexivity.
Qed.

(** ** [view] with an inferred last dimension, and back *)

Lemma view_infer_last (t : tensor) (a b m : Z) :
  0 < a -> 0 < b -> numel t = a * b * m ->
  torch.view t [a; b; -1] = Ok (mkTensor [a; b; m] (data t)).
Proof.
  intros Ha Hb Hn. unfold torch.view.
  assert (Ea : (a =? -1) = false) by (apply Z.eqb_neq; lia).
  assert (Eb : (b =? -1) = false) by (apply Z.eqb_neq; lia).
  cbn [filter List.length forallb map negb prod fold_right].
  rewrite Ea, Eb. change (-1 =? -1) with true.
  cbn [negb List.length prod fold_right].
  change (-1 <=? -1) with true.
  rewrite (proj2 (Z.leb_le (-1) a)), (proj2 (Z.leb_le (-1) b)) by lia.
  replace (a * (b * 1)) with (a * b) by ring.
  rewrite (proj2 (Z.eqb_neq (a * b) 0)) by nia.
  rewrite Hn, (Z.mul_comm _ m), Z.mod_mul by nia.
  rewrite Z.div_mul by nia. reflexivity.
Qed.

Lemma view_infer_last_zero (t : tensor) (b : Z) :
  b <> -1 -> torch.view t [0; b; -1] = Raise ShapeMismatch.
Proof.
  intros Hb. unfold torch.view.
  apply Z.eqb_neq in Hb.
  cbn [filter List.length forallb map negb prod fold_right].
  change (0 =? -1) with false. rewrite Hb. change (-1 =? -1) with true.
  cbn [negb List.length prod fold_right].
  rewrite Z.mul_0_l. change (0 =? 0) with true.
  cbn [negb]. rewrite andb_false_r. reflexivity.
Qed.

Lemma view_rank4 (t : tensor) (a b c d : Z) :
  0 <= a -> 0 <= b -> 0 <= c -> 0 <= d -> numel t = a * b * (c * d) ->
  torch.view t [a; b; c; d] = Ok (mkTensor [a; b; c; d] (data t)).
Proof.
  intros Ha Hb Hc Hd Hn. unfold torch.view.
  cbn [filter List.length forallb map negb prod fold_right].
  rewrite (proj2 (Z.eqb_neq a (-1))), (proj2 (Z.eqb_neq b (-1))),
    (proj2 (Z.eqb_neq c (-1))), (proj2 (Z.eqb_neq d (-1))) by lia.
  cbn [List.length].
  rewrite (proj2 (Z.leb_le 0 a)), (proj2 (Z.leb_le 0 b)),
    (proj2 (Z.leb_le 0 c)), (proj2 (Z.leb_le 0 d)) by assumption.
  rewrite Hn. rewrite (proj2 (Z.eqb_eq _ _)) by ring. reflexivity.
Qed.

(** ** The attention branch, step by step *)

Lemma kernel1_extent (h : Z) : h + 2 * 0 - 1 + 1 = h.
Proof. lia. Qed.

Lemma kernel3_extent (h : Z) : h + 2 * 1 - 3 + 1 = h.
Proof. lia. Qed.

Lemma bmm_inv (a b c : tensor) :
  torch.bmm a b = Ok c ->
  exists ba n m p,
    shape a = [ba; n; m] /\ shape b = [ba; m; p] /\ shape c = [ba; n; p]
    /\ forall o,
        data c o =
        sumZ m (fun k =>
          (data a ((o / (n * p) * n + (o / p) mod n) * m + k)
           * data b ((o / (n * p) * m + k) * p + o mod p))%R).
Proof.
  unfold torch.bmm.
  destruct (shape a) as [|ba [|n [|m [|? ?]]]] eqn:Ha; try discriminate.
  destruct (shape b) as [|bb [|m' [|p [|? ?]]]] eqn:Hb; try discriminate.
  destruct ((ba =? bb) && (m =? m')) eqn:Hc; [|discriminate].
  apply andb_true_iff in Hc. destruct Hc as [H1 H2].
  apply Z.eqb_eq in H1, H2. subst bb m'. intros [= <-].
  exists ba, n, m, p. repeat split; reflexivity.
Qed.

Lemma bmm_mismatch (a b : tensor) (ba n m bb m' p : Z) :
  shape a = [ba; n; m] -> shape b = [bb; m'; p] -> m <> m' ->
  torch.bmm a b = Raise ShapeMismatch.
Proof.
  intros Ha Hb Hm. unfold torch.bmm. rewrite Ha, Hb.
  apply Z.eqb_neq in Hm. rewrite Hm, andb_false_r. reflexivity.
Qed.

Lemma bmm_ok (a b : tensor) (ba n m p : Z) :
  shape a = [ba; n; m] -> shape b = [ba; m; p] ->
  exists c, torch.bmm a b = Ok c /\ shape c = [ba; n; p].
Proof.
  intros Ha Hb. unfold torch.bmm. rewrite Ha, Hb, !Z.eqb_refl.
  eexists. split; reflexivity.
Qed.

Lemma softmax_dim1 (t : tensor) (n c m : Z) :
  shape t = [n; c; m] ->
  exists s,
    torch.softmax t 1 = Ok s /\ shape s = [n; c; m]
    /\ forall o,
        data s o =
        (exp (data t o)
         / sumZ c (fun k => exp (data t ((o / (c * m) * c + k) * m + o mod m))))%R.
Proof.
  intros Hs. unfold torch.softmax. rewrite Hs.
  cbn [List.length Nat.ltb Nat.leb nth skipn prod fold_right].
  eexists. split; [reflexivity|]. split; [reflexivity|].
  intros o. cbn [data]. rewrite Z.mul_1_r. reflexivity.
Qed.

Section AttentionGeneration.

Variables (inc red out : Z) (w : attention_params).

Let self := _AttentionGeneration.__init__ inc red out w.

Lemma AG_forward_steps (e : env) (x : tensor) (n h wd : Z) :
  shape x = [n; inc; h; wd] ->
  0 < n -> 0 < red -> 0 < out -> 0 <= h -> 0 <= wd ->
  exists r a s,
    _ConvBNReLU_forward (_AttentionGeneration.conv_reduce self) (training e) x
    = Ok r
    /\ shape r = [n; red; h; wd]
    /\ _AttentionGeneration.attention_forward self e r = Ok a
    /\ shape a = [n; out; h; wd]
    /\ torch.softmax (mkTensor [n; out; h * wd] (data a)) 1 = Ok s
    /\ shape s = [n; out; h * wd]
    /\ _AttentionGeneration.forward self e x =
       (fm <- torch.bmm (mkTensor [n; red; h * wd] (data r)) s ;;
        Ok (mkTensor [n; red; h; wd] (data fm))).
Proof.
  intros Hs Hn Hred Hout Hh Hw.
  pose proof (ConvBNReLU_forward_ok
                (_AttentionGeneration.conv_reduce self) (training e) x n h wd Hs)
    as Hr.
  cbn [self _AttentionGeneration.__init__ _AttentionGeneration.conv_reduce
       cbr_in cbr_out cbr_kernel cbr_padding cbr_fn] in Hr.
  rewrite !kernel1_extent in Hr.
  change (mk_ConvBNReLU inc red 1 0 (reduce_fn w))
    with (_AttentionGeneration.conv_reduce self) in Hr.
  set (r := mkTensor [n; red; h; wd] (reduce_fn w (training e) x)) in *.
  assert (Ha : exists a,
             _AttentionGeneration.attention_forward self e r = Ok a
             /\ shape a = [n; out; h; wd]).
  { unfold _AttentionGeneration.attention_forward.
    cbn [self _AttentionGeneration.__init__ _AttentionGeneration.attention
         fst snd].
    rewrite (ConvBNReLU_forward_ok
               (mk_ConvBNReLU red red 1 0 (attention_fn w))
               (training e) r n h wd eq_refl).
    cbn [bind cbr_in cbr_out cbr_kernel cbr_padding cbr_fn].
    rewrite !kernel1_extent.
    apply (Conv2d_forward_ok (nn.mkConv2d red out (attention_weight w) None)
             (mkTensor [n; red; h; wd] _) n h wd Hout eq_refl). }
  destruct Ha as (a & Ha & Hsa).
  destruct (softmax_dim1 (mkTensor [n; out; h * wd] (data a)) n out (h * wd)
              eq_refl) as (s & Hsm & Hss & _).
  exists r, a, s.
  split; [exact Hr|]. split; [reflexivity|]. split; [exact Ha|].
  split; [exact Hsa|]. split; [exact Hsm|]. split; [exact Hss|].
  unfold _AttentionGeneration.forward.
  rewrite Hr. cbn [bind]. rewrite Ha. cbn [bind].
  unfold torch.size4. rewrite Hsa. cbn [bind].
  rewrite (view_infer_last a n out (h * wd)); try assumption.
  2:{ unfold numel. rewrite Hsa. cbn [prod fold_right]. ring. }
  cbn [bind].
  cbn [self _AttentionGeneration.__init__
       _AttentionGeneration.reduced_channels].
  rewrite (view_infer_last r n red (h * wd)); try assumption.
  2:{ unfold numel, r. cbn [shape prod fold_right]. ring. }
  cbn [bind]. rewrite Hsm. cbn [bind].
  destruct (torch.bmm (mkTensor [n; red; h * wd] (data r)) s) as [fm|err]
    eqn:Hb; cbn [bind]; [|reflexivity].
  destruct (bmm_inv _ _ _ Hb) as (ba & n' & m & p' & Hba & Hbs & Hfm & _).
  cbn [shape] in Hba. rewrite Hss in Hbs.
  assert (ba = n /\ n' = red /\ p' = h * wd) as (-> & -> & ->)
    by (repeat split; congruence).
  rewrite (view_rank4 fm n red h wd); try lia; [reflexivity|].
  unfold numel. rewrite Hfm. cbn [prod fold_right]. ring.
Qed.

End AttentionGeneration.

(** ** Softmax over dimension 1 *)

Lemma softmax_dim1_entry (t s : tensor) (n c m b i j : Z) :
  shape t = [n; c; m] -> torch.softmax t 1 = Ok s ->
  0 <= i < c -> 0 <= j < m ->
  get3 s b i j =
  (exp (get3 t b i j) / sumZ c (fun k => exp (get3 t b k j)))%R.
Proof.
  intros Hs Hsm Hi Hj.
  destruct (softmax_dim1 t n c m Hs) as (s' & Hs' & Hshape & Hdata).
  rewrite Hsm in Hs'. injection Hs' as <-.
  unfold get3. rewrite Hshape, Hs, Hdata.
  rewrite decode_outer, decode_last by assumption. reflexivity.
Qed.

Lemma softmax_dim1_column (t s : tensor) (n c m b j : Z) :
  shape t = [n; c; m] -> torch.softmax t 1 = Ok s ->
  0 < c -> 0 <= j < m ->
  sumZ c (fun i => get3 s b i j) = 1%R.
Proof.
  intros Hs Hsm Hc Hj.
  rewrite (sumZ_ext c _
             (fun i => (exp (get3 t b i j)
                        / sumZ c (fun k => exp (get3 t b k j)))%R)).
  - unfold sumZ. apply (Rsum_normalized _ (fun k => get3 t b k j)). lia.
  - intros i Hi. apply (softmax_dim1_entry t s n c m); assumption.
Qed.

Lemma bmm_entry (a b c : tensor) (ba n m p bi i j : Z) :
  shape a = [ba; n; m] -> shape b = [ba; m; p] -> torch.bmm a b = Ok c ->
  0 <= i < n -> 0 <= j < p ->
  get3 c bi i j = sumZ m (fun k => (get3 a bi i k * get3 b bi k j)%R).
Proof.
  intros Ha Hb Hc Hi Hj.
  destruct (bmm_inv a b c Hc) as (ba' & n' & m' & p' & Ha' & Hb' & Hsc & Hd).
  assert (ba' = ba /\ n' = n /\ m' = m /\ p' = p) as (-> & -> & -> & ->)
    by (repeat split; congruence).
  unfold get3. rewrite Hsc, Ha, Hb, Hd.
  rewrite decode_outer, decode_mid, decode_last by assumption. reflexivity.
Qed.

(** ** Flattening the spatial dimensions *)

Lemma get3_flatten (t : tensor) (n c h w b k i : Z) :
  shape t = [n; c; h; w] -> 0 < w ->
  get3 (mkTensor [n; c; h * w] (data t)) b k i
  = get4 t b k (i / w) (i mod w).
Proof.
  intros Hs Hw. unfold get3, get4. rewrite Hs. cbn [shape data].
  f_equal. pose proof (unflatten_flat i w Hw). nia.
Qed.

Lemma get4_unflatten (t : tensor) (n c h w b k y x : Z) :
  shape t = [n; c; h * w] ->
  get4 (mkTensor [n; c; h; w] (data t)) b k y x = get3 t b k (y * w + x).
Proof.
  intros Hs. unfold get3, get4. rewrite Hs. cbn [shape data].
  f_equal. ring.
Qed.

(** ** Claims about [_AttentionGeneration.forward] *)

(** C2: for every input feature map of shape (N, in_channels, H, W)
    accepted by [_AttentionGeneration.forward], the result has shape
    (N, reduced_channels, H, W) and equals, entry by entry, the
    composition of the specification: flatten the attention tensor and
    the channel-reduced map, normalize the attention by softmax,
    multiply the reduced map (reduced_channels x positions) by the
    normalized attention (positions x positions) and reshape the
    product back to the grid. *)
Theorem AttentionGeneration_forward_refines_spec
    (inc red out : Z) (w : attention_params) (e : env) (x fm : tensor)
    (n h wd : Z) :
  shape x = [n; inc; h; wd] ->
  0 < n -> 0 < h -> 0 < wd -> 0 < red -> 0 < out ->
  _AttentionGeneration.forward
    (_AttentionGeneration.__init__ inc red out w) e x = Ok fm ->
  exists r a,
    _ConvBNReLU_forward
      (_AttentionGeneration.conv_reduce
         (_AttentionGeneration.__init__ inc red out w)) (training e) x = Ok r
    /\ _AttentionGeneration.attention_forward
         (_AttentionGeneration.__init__ inc red out w) e r = Ok a
    /\ shape a = [n; h * wd; h; wd]
    /\ shape fm = [n; red; h; wd]
    /\ forall b k y x',
        0 <= k < red -> 0 <= y < h -> 0 <= x' < wd ->
        get4 fm b k y x'
        = SpecAttention.attention_generation h wd (get4 r) (get4 a) b k y x'.
Proof.
  intros Hs Hn Hh Hw Hred Hout Hfwd.
  destruct (AG_forward_steps inc red out w e x n h wd Hs)
    as (r & a & s & Hr & Hsr & Ha & Hsa & Hsm & Hss & Heq); try lia.
  rewrite Heq in Hfwd.
  destruct (torch.bmm (mkTensor [n; red; h * wd] (data r)) s) as [fm3|err]
    eqn:Hb; cbn [bind] in Hfwd; [|discriminate].
  injection Hfwd as <-.
  destruct (bmm_inv _ _ _ Hb) as (ba & n' & m & p' & Hba & Hbs & Hfm & _).
  cbn [shape] in Hba. rewrite Hss in Hbs.
  assert (ba = n /\ n' = red /\ m = h * wd /\ out = h * wd /\ p' = h * wd)
    as (-> & -> & -> & -> & ->) by (repeat split; congruence).
  exists r, a. split; [exact Hr|]. split; [exact Ha|].
  split; [exact Hsa|]. split; [reflexivity|].
  intros b k y x' Hk Hy Hx.
  pose proof (flat_position_range y x' h wd Hy Hx) as Hj.
  rewrite (get4_unflatten fm3 n red h wd) by exact Hfm.
  rewrite (bmm_entry (mkTensor [n; red; h * wd] (data r)) s fm3
             n red (h * wd) (h * wd) b k (y * wd + x')
             eq_refl Hss Hb Hk Hj).
  unfold SpecAttention.attention_generation, SpecAttention.reshape,
    SpecAttention.bmm.
  apply sumZ_ext. intros i Hi.
  rewrite (get3_flatten r n red h wd) by assumption.
  rewrite (softmax_dim1_entry
             (mkTensor [n; h * wd; h * wd] (data a)) s
             n (h * wd) (h * wd) b i (y * wd + x') eq_refl Hsm Hi Hj).
  unfold SpecAttention.softmax, SpecAttention.flatten.
  rewrite (get3_flatten a n (h * wd) h wd) by assumption.
  f_equal. f_equal. apply sumZ_ext. intros k' Hk'.
  rewrite (get3_flatten a n (h * wd) h wd) by assumption. reflexivity.
Qed.
(** Witness of C2 at the configuration used by the head. *)

Lemma AttentionGeneration_forward_refines_spec_witness :
  let self :=
    _AttentionGeneration.__init__ 2048 512 3600 zero_attention_params in
  let x := zeros [1; 2048; 60; 60] in
  exists fm,
    _AttentionGeneration.forward self eval_env x = Ok fm
    /\ exists r a,
        _ConvBNReLU_forward (_AttentionGeneration.conv_reduce self)
          (training eval_env) x = Ok r
        /\ _AttentionGeneration.attention_forward self eval_env r = Ok a
        /\ shape a = [1; 60 * 60; 60; 60]
        /\ shape fm = [1; 512; 60; 60]
        /\ forall b k y x',
            0 <= k < 512 -> 0 <= y < 60 -> 0 <= x' < 60 ->
            get4 fm b k y x'
            = SpecAttention.attention_generation 60 60
                (get4 r) (get4 a) b k y x'.
Proof.
  intros self x. eexists. split; [reflexivity|].
  apply (AttentionGeneration_forward_refines_spec
           2048 512 3600 zero_attention_params eval_env x _ 1 60 60);
    [reflexivity | lia | lia | lia | lia | lia | reflexivity].
Defined.

(** C3: in [_AttentionGeneration.forward] the normalized attention
    [weights] is the second operand of the batched matrix product; the
    entry of the product at output position [j] combines the reduced
    features with column [j] of [weights], and that column sums to 1
    over the attended dimension. *)
Theorem attention_weights_sum_to_one
    (inc red out : Z) (w : attention_params) (e : env) (x fm : tensor)
    (n h wd : Z) :
  shape x = [n; inc; h; wd] ->
  0 < n -> 0 < h -> 0 < wd -> 0 < red -> 0 < out ->
  _AttentionGeneration.forward
    (_AttentionGeneration.__init__ inc red out w) e x = Ok fm ->
  exists r a reduce_x weights product,
    _ConvBNReLU_forward
      (_AttentionGeneration.conv_reduce
         (_AttentionGeneration.__init__ inc red out w)) (training e) x = Ok r
    /\ _AttentionGeneration.attention_forward
         (_AttentionGeneration.__init__ inc red out w) e r = Ok a
    /\ torch.view r [n; red; -1] = Ok reduce_x
    /\ (flat <- torch.view a [n; out; -1] ;; torch.softmax flat 1)
       = Ok weights
    /\ torch.bmm reduce_x weights = Ok product
    /\ data fm = data product
    /\ shape weights = [n; h * wd; h * wd]
    /\ (forall b k j,
          0 <= k < red -> 0 <= j < h * wd ->
          get3 product b k j
          = sumZ (h * wd)
              (fun i => (get3 reduce_x b k i * get3 weights b i j)%R))
    /\ (forall b j,
          0 <= j < h * wd ->
          sumZ (h * wd) (fun i => get3 weights b i j) = 1%R).
Proof.
  intros Hs Hn Hh Hw Hred Hout Hfwd.
  destruct (AG_forward_steps inc red out w e x n h wd Hs)
    as (r & a & s & Hr & Hsr & Ha & Hsa & Hsm & Hss & Heq); try lia.
  rewrite Heq in Hfwd.
  destruct (torch.bmm (mkTensor [n; red; h * wd] (data r)) s) as [fm3|err]
    eqn:Hb; cbn [bind] in Hfwd; [|discriminate].
  injection Hfwd as <-.
  destruct (bmm_inv _ _ _ Hb) as (ba & n' & m & p' & Hba & Hbs & Hfm & _).
  cbn [shape] in Hba. rewrite Hss in Hbs.
  assert (Hpos : out = h * wd) by congruence.
  exists r, a, (mkTensor [n; red; h * wd] (data r)), s, fm3.
  split; [exact Hr|]. split; [exact Ha|].
  split.
  { apply view_infer_last; try assumption.
    unfold numel. rewrite Hsr. cbn [prod fold_right]. ring. }
  split.
  { rewrite (view_infer_last a n out (h * wd) Hn Hout).
    - cbn [bind]. exact Hsm.
    - unfold numel. rewrite Hsa. cbn [prod fold_right]. ring. }
  split; [exact Hb|]. split; [reflexivity|].
  rewrite Hpos in Hss, Hsm.
  split; [exact Hss|]. split.
  - intros b k j Hk Hj.
    apply (bmm_entry (mkTensor [n; red; h * wd] (data r)) s fm3
             n red (h * wd) (h * wd)); auto.
  - intros b j Hj.
    apply (softmax_dim1_column
             (mkTensor [n; h * wd; h * wd] (data a)) s n (h * wd) (h * wd));
      auto; nia.
Qed.

(** Witness of C3: a 60 x 60 feature map with 2048 channels. *)
Lemma attention_weights_sum_to_one_witness :
  let self :=
    _AttentionGeneration.__init__ 2048 512 3600 zero_attention_params in
  let x := zeros [1; 2048; 60; 60] in
  exists fm,
    _AttentionGeneration.forward self eval_env x = Ok fm
    /\ exists weights,
        (a <- (r <- _ConvBNReLU_forward
                      (_AttentionGeneration.conv_reduce self) false x ;;
               _AttentionGeneration.attention_forward self eval_env r) ;;
         flat <- torch.view a [1; 3600; -1] ;; torch.softmax flat 1)
        = Ok weights
        /\ forall b j,
            0 <= j < 3600 ->
            sumZ 3600 (fun i => get3 weights b i j) = 1%R.
Proof.
  intros self x. eexists. split; [reflexivity|].
  destruct (attention_weights_sum_to_one
              2048 512 3600 zero_attention_params eval_env x _ 1 60 60
              eq_refl ltac:(lia) ltac:(lia) ltac:(lia) ltac:(lia) ltac:(lia)
              eq_refl)
    as (r & a & rx & wts & pr & Hr & Ha & _ & Hw & _ & _ & _ & _ & Hsum).
  exists wts. split.
  - change (training eval_env) with false in Hr.
    fold self in Hr, Ha. rewrite Hr. cbn [bind]. rewrite Ha. cbn [bind].
    exact Hw.
  - exact Hsum.
Defined.

(** ** When the attention branch accepts its input *)

Lemma returns_Ok {A : Type} (a : A) : returns (Ok a).
Proof. exists a. reflexivity. Qed.

Lemma returns_Raise {A : Type} (err : error) : ~ returns (@Raise A err).
Proof. intros [a Ha]. discriminate. Qed.

Lemma AG_forward_accepts_iff (inc red out : Z) (w : attention_params)
    (e : env) (x : tensor) (n h wd : Z) :
  shape x = [n; inc; h; wd] ->
  0 < n -> 0 <= h -> 0 <= wd -> 0 < red -> 0 < out ->
  exists reduce_x weights,
    shape reduce_x = [n; red; h * wd]
    /\ shape weights = [n; out; h * wd]
    /\ _AttentionGeneration.forward
         (_AttentionGeneration.__init__ inc red out w) e x
       = (fm <- torch.bmm reduce_x weights ;;
          Ok (mkTensor [n; red; h; wd] (data fm)))
    /\ (returns (torch.bmm reduce_x weights) <-> h * wd = out)
    /\ (returns (_AttentionGeneration.forward
                   (_AttentionGeneration.__init__ inc red out w) e x)
        <-> h * wd = out)
    /\ (h * wd <> out ->
        _AttentionGeneration.forward
          (_AttentionGeneration.__init__ inc red out w) e x
        = Raise ShapeMismatch).
Proof.
  intros Hs Hn Hh Hw Hred Hout.
  destruct (AG_forward_steps inc red out w e x n h wd Hs)
    as (r & a & s & Hr & Hsr & Ha & Hsa & Hsm & Hss & Heq); try lia.
  exists (mkTensor [n; red; h * wd] (data r)), s.
  split; [reflexivity|]. split; [exact Hss|]. split; [exact Heq|].
  destruct (Z.eq_dec (h * wd) out) as [Hpos|Hpos].
  - rewrite <- Hpos in Hss.
    destruct (bmm_ok (mkTensor [n; red; h * wd] (data r)) s
                n red (h * wd) (h * wd) eq_refl Hss) as (c & Hc & _).
    rewrite Heq, Hc. cbn [bind].
    split; [split; [intros _; exact Hpos | intros _; apply returns_Ok]|].
    split; [split; [intros _; exact Hpos | intros _; apply returns_Ok]|].
    intros Hne. contradiction.
  - rewrite Heq.
    rewrite (bmm_mismatch (mkTensor [n; red; h * wd] (data r)) s
               n red (h * wd) n out (h * wd) eq_refl Hss Hpos).
    cbn [bind].
    split; [split; [intros Hret; destruct (returns_Raise _ Hret)
                   | intros Hp; contradiction]|].
    split; [split; [intros Hret; destruct (returns_Raise _ Hret)
                   | intros Hp; contradiction]|].
    intros _. reflexivity.
Qed.

Lemma AG_forward_channel_mismatch (inc red out : Z) (w : attention_params)
    (e : env) (x : tensor) (n c h wd : Z) :
  shape x = [n; c; h; wd] -> c <> inc ->
  _AttentionGeneration.forward
    (_AttentionGeneration.__init__ inc red out w) e x
  = Raise ShapeMismatch.
Proof.
  intros Hs Hc. unfold _AttentionGeneration.forward.
  rewrite (ConvBNReLU_forward_mismatch _ _ x n c h wd Hs); [reflexivity|].
  exact Hc.
Qed.

(** An empty batch is rejected: the last dimension of [view(n, c, -1)]
    cannot be inferred when the other dimensions multiply to zero. *)
Lemma AG_forward_empty_batch (inc red out : Z) (w : attention_params)
    (e : env) (x : tensor) (h wd : Z) :
  shape x = [0; inc; h; wd] -> 0 < out ->
  _AttentionGeneration.forward
    (_AttentionGeneration.__init__ inc red out w) e x
  = Raise ShapeMismatch.
Proof.
  intros Hs Hout.
  unfold _AttentionGeneration.forward, _AttentionGeneration.attention_forward.
  cbn [_AttentionGeneration.__init__ _AttentionGeneration.attention
       _AttentionGeneration.conv_reduce
       _AttentionGeneration.reduced_channels fst snd].
  rewrite (ConvBNReLU_forward_ok
             (mk_ConvBNReLU inc red 1 0 (reduce_fn w))
             (training e) x 0 h wd Hs).
  cbn [bind cbr_in cbr_out cbr_kernel cbr_padding cbr_fn].
  rewrite !kernel1_extent.
  rewrite (ConvBNReLU_forward_ok
             (mk_ConvBNReLU red red 1 0 (attention_fn w))
             (training e) (mkTensor [0; red; h; wd] _) 0 h wd eq_refl).
  cbn [bind cbr_in cbr_out cbr_kernel cbr_padding cbr_fn].
  rewrite !kernel1_extent.
  destruct (Conv2d_forward_ok
              (nn.mkConv2d red out (attention_weight w) None)
              (mkTensor [0; red; h; wd]
                 (attention_fn w (training e)
                    (mkTensor [0; red; h; wd]
                       (reduce_fn w (training e) x))))
              0 h wd Hout eq_refl) as (a & Ha & Hsa).
  rewrite Ha. cbn [bind]. unfold torch.size4. rewrite Hsa.
  cbn [bind nn.out_channels].
  rewrite (view_infer_last_zero a out ltac:(lia)). reflexivity.
Qed.

(** C4: in the two attention branches that [_PSAHead] builds (attention
    out_channels hard-coded to 3600), for an input feature map of shape
    (N, C, H, W): whenever H*W differs from 3600 the forward computation
    raises a shape mismatch instead of returning a tensor; and on the
    2048 channels the branch expects, the batched matrix product of the
    flattened reduced map with the normalized attention is well-formed
    if and only if H*W = 3600, and so is the whole forward pass. *)
Theorem attention_bmm_well_formed_iff_3600_positions
    (nclass : Z) (hw : head_params) (ag : _AttentionGeneration.t)
    (e : env) (x : tensor) (n c h wd : Z) :
  In ag [_PointwiseSpatialAttention.collect_attention
           (_PSAHead.psa (_PSAHead.__init__ nclass hw));
         _PointwiseSpatialAttention.distribute_attention
           (_PSAHead.psa (_PSAHead.__init__ nclass hw))] ->
  shape x = [n; c; h; wd] ->
  0 < n -> 0 < h -> 0 < wd ->
  (h * wd <> 3600 ->
   _AttentionGeneration.forward ag e x = Raise ShapeMismatch)
  /\ (c = 2048 ->
      exists reduce_x weights,
        shape reduce_x = [n; 512; h * wd]
        /\ shape weights = [n; 3600; h * wd]
        /\ _AttentionGeneration.forward ag e x
           = (fm <- torch.bmm reduce_x weights ;;
              Ok (mkTensor [n; 512; h; wd] (data fm)))
        /\ (returns (torch.bmm reduce_x weights) <-> h * wd = 3600)
        /\ (returns (_AttentionGeneration.forward ag e x)
            <-> h * wd = 3600)).
Proof.
  intros Hag Hs Hn Hh Hw.
  assert (Hinit : exists w,
             ag = _AttentionGeneration.__init__ 2048 512 3600 w).
  { destruct Hag as [<-|[<-|[]]]; eexists; reflexivity. }
  destruct Hinit as [w ->].
  split.
  - intros Hne. destruct (Z.eq_dec c 2048) as [->|Hc].
    + destruct (AG_forward_accepts_iff 2048 512 3600 w e x n h wd Hs)
        as (rx & wts & _ & _ & _ & _ & _ & Hfail); try lia.
      apply Hfail, Hne.
    + apply (AG_forward_channel_mismatch 2048 512 3600 w e x n c h wd Hs Hc).
  - intros ->.
    destruct (AG_forward_accepts_iff 2048 512 3600 w e x n h wd Hs)
      as (rx & wts & H1 & H2 & H3 & H4 & H5 & _); try lia.
    exists rx, wts. repeat split; try assumption; try apply H4; try apply H5.
Qed.

(** Witness of C4: the collect branch on a 60 x 60 map. *)
Lemma attention_bmm_well_formed_iff_3600_positions_witness :
  (60 * 60 <> 3600 ->
   _AttentionGeneration.forward
     (_PointwiseSpatialAttention.collect_attention
        (_PSAHead.psa (_PSAHead.__init__ 1 zero_head_params)))
     eval_env (zeros [1; 2048; 60; 60]) = Raise ShapeMismatch)
  /\ (2048 = 2048 ->
      exists reduce_x weights,
        shape reduce_x = [1; 512; 60 * 60]
        /\ shape weights = [1; 3600; 60 * 60]
        /\ _AttentionGeneration.forward
             (_PointwiseSpatialAttention.collect_attention
                (_PSAHead.psa (_PSAHead.__init__ 1 zero_head_params)))
             eval_env (zeros [1; 2048; 60; 60])
           = (fm <- torch.bmm reduce_x weights ;;
              Ok (mkTensor [1; 512; 60; 60] (data fm)))
        /\ (returns (torch.bmm reduce_x weights) <-> 60 * 60 = 3600)
        /\ (returns
              (_AttentionGeneration.forward
                 (_PointwiseSpatialAttention.collect_attention
                    (_PSAHead.psa (_PSAHead.__init__ 1 zero_head_params)))
                 eval_env (zeros [1; 2048; 60; 60]))
            <-> 60 * 60 = 3600)).
Proof.
  apply (attention_bmm_well_formed_iff_3600_positions
           1 zero_head_params _ eval_env (zeros [1; 2048; 60; 60])
           1 2048 60 60);
    [left; reflexivity | reflexivity | lia | lia | lia].
Defined.

Lemma AG_forward_ok (inc red out : Z) (w : attention_params)
    (e : env) (x : tensor) (n h wd : Z) :
  shape x = [n; inc; h; wd] ->
  0 < n -> 0 <= h -> 0 <= wd -> 0 < red -> 0 < out -> h * wd = out ->
  exists fm,
    _AttentionGeneration.forward
      (_AttentionGeneration.__init__ inc red out w) e x = Ok fm
    /\ shape fm = [n; red; h; wd].
Proof.
  intros Hs Hn Hh Hw Hred Hout Hpos.
  destruct (AG_forward_accepts_iff inc red out w e x n h wd Hs)
    as (rx & wts & _ & _ & Heq & Hb & _ & _); try lia.
  destruct (proj2 Hb Hpos) as [fm3 Hfm3].
  rewrite Heq, Hfm3. cbn [bind]. eexists. split; reflexivity.
Qed.

(** ** Concatenation along the channel axis *)

Lemma list_eqb_refl (l : list Z) : list_eqb l l = true.
Proof.
  induction l as [|a l IH]; [reflexivity|].
  cbn [list_eqb]. rewrite Z.eqb_refl, IH. reflexivity.
Qed.

Lemma cat_channels (a b : tensor) (n ca cb h w : Z) :
  shape a = [n; ca; h; w] -> shape b = [n; cb; h; w] ->
  exists y,
    torch.cat [a; b] 1 = Ok y
    /\ shape y = [n; ca + cb; h; w]
    /\ forall bi c yy xx,
        0 <= c < ca + cb -> 0 <= yy < h -> 0 <= xx < w ->
        get4 y bi c yy xx
        = if c <? ca then get4 a bi c yy xx else get4 b bi (c - ca) yy xx.
Proof.
  intros Ha Hb. unfold torch.cat. cbn [fold_left bind].
  unfold torch.cat2. rewrite Ha, Hb.
  cbn [List.length Nat.ltb Nat.leb Nat.eqb firstn skipn nth app andb].
  rewrite !list_eqb_refl. cbn [andb].
  eexists. split; [reflexivity|]. split; [reflexivity|].
  intros bi c yy xx Hc Hy Hx.
  pose proof (flat_position_range yy xx h w Hy Hx) as Hj.
  unfold get4. rewrite Ha, Hb. cbn [shape data prod fold_right].
  rewrite Z.mul_1_r.
  replace (((bi * (ca + cb) + c) * h + yy) * w + xx)
    with ((bi * (ca + cb) + c) * (h * w) + (yy * w + xx)) by ring.
  rewrite decode_outer, decode_mid, decode_last by assumption.
  destruct (c <? ca); f_equal; ring.
Qed.

(** ** The point-wise spatial attention module *)

Lemma PSA_forward_ok (inc out : Z) (wc wdist : attention_params)
    (e : env) (x : tensor) (n h w : Z) :
  shape x = [n; inc; h; w] ->
  0 < n -> 0 < h -> 0 < w -> 0 < out -> h * w = out ->
  exists cf df y,
    _AttentionGeneration.forward
      (_AttentionGeneration.__init__ inc 512 out wc) e x = Ok cf
    /\ shape cf = [n; 512; h; w]
    /\ _AttentionGeneration.forward
         (_AttentionGeneration.__init__ inc 512 out wdist) e x = Ok df
    /\ shape df = [n; 512; h; w]
    /\ torch.cat [cf; df] 1 = Ok y
    /\ _PointwiseSpatialAttention.forward
         (_PointwiseSpatialAttention.__init__ inc out wc wdist) e x = Ok y
    /\ shape y = [n; 1024; h; w]
    /\ forall bi c yy xx,
        0 <= c < 1024 -> 0 <= yy < h -> 0 <= xx < w ->
        get4 y bi c yy xx
        = if c <? 512 then get4 cf bi c yy xx
          else get4 df bi (c - 512) yy xx.
Proof.
  intros Hs Hn Hh Hw Hout Hpos.
  destruct (AG_forward_ok inc 512 out wc e x n h w Hs)
    as (cf & Hcf & Hscf); try lia.
  destruct (AG_forward_ok inc 512 out wdist e x n h w Hs)
    as (df & Hdf & Hsdf); try lia.
  destruct (cat_channels cf df n 512 512 h w Hscf Hsdf)
    as (y & Hy & Hsy & Hval).
  exists cf, df, y.
  split; [exact Hcf|]. split; [exact Hscf|]. split; [exact Hdf|].
  split; [exact Hsdf|]. split; [exact Hy|]. split.
  - unfold _PointwiseSpatialAttention.forward.
    cbn [_PointwiseSpatialAttention.__init__
         _PointwiseSpatialAttention.collect_attention
         _PointwiseSpatialAttention.distribute_attention].
    rewrite Hcf. cbn [bind]. rewrite Hdf. cbn [bind]. rewrite Hy.
    reflexivity.
  - split; [exact Hsy|]. exact Hval.
Qed.

Lemma PSA_forward_rejects (inc out : Z) (wc wdist : attention_params)
    (e : env) (x : tensor) (n h w : Z) :
  shape x = [n; inc; h; w] ->
  0 < n -> 0 < h -> 0 < w -> 0 < out -> h * w <> out ->
  _PointwiseSpatialAttention.forward
    (_PointwiseSpatialAttention.__init__ inc out wc wdist) e x
  = Raise ShapeMismatch.
Proof.
  intros Hs Hn Hh Hw Hout Hpos.
  destruct (AG_forward_accepts_iff inc 512 out wc e x n h w Hs)
    as (rx & wts & _ & _ & _ & _ & _ & Hfail); try lia.
  unfold _PointwiseSpatialAttention.forward.
  cbn [_PointwiseSpatialAttention.__init__
       _PointwiseSpatialAttention.collect_attention].
  rewrite (Hfail Hpos). reflexivity.
Qed.

(** C5, as stated, fails: a (1, 2048, 28, 28) feature map is an input of
    shape (N, 2048, H, W), and [_PointwiseSpatialAttention.forward]
    raises on it instead of producing a (1, 1024, 28, 28) tensor. *)
Lemma PointwiseSpatialAttention_rejects_28x28 :
  shape (zeros [1; 2048; 28; 28]) = [1; 2048; 28; 28]
  /\ _PointwiseSpatialAttention.forward
       (_PSAHead.psa (_PSAHead.__init__ 1 zero_head_params))
       eval_env (zeros [1; 2048; 28; 28]) = Raise ShapeMismatch
  /\ ~ exists y,
         _PointwiseSpatialAttention.forward
           (_PSAHead.psa (_PSAHead.__init__ 1 zero_head_params))
           eval_env (zeros [1; 2048; 28; 28]) = Ok y
         /\ shape y = [1; 2 * 512; 28; 28].
Proof.
  assert (H : _PointwiseSpatialAttention.forward
                (_PSAHead.psa (_PSAHead.__init__ 1 zero_head_params))
                eval_env (zeros [1; 2048; 28; 28]) = Raise ShapeMismatch)
    by reflexivity.
  split; [reflexivity|]. split; [exact H|].
  intros (y & Hy & _). rewrite H in Hy. discriminate.
Qed.

(** C5 (amended): for every input of shape (N, 2048, H, W) with N >= 1
    and H*W = 3600 positions, [_PointwiseSpatialAttention.forward] runs
    the collect and the distribute branch on that same input and returns
    their concatenation along the channel axis, of shape
    (N, 2*reduced_channels, H, W): channels 0..511 are the collect
    output and channels 512..1023 the distribute output.  The branches
    share no learned parameters: replacing the parameters of one branch
    leaves the output of the other branch, and its half of the
    concatenation, unchanged. *)
Theorem PointwiseSpatialAttention_forward_concatenates
    (wc wdist : attention_params) (e : env) (x : tensor) (n h w : Z) :
  shape x = [n; 2048; h; w] ->
  0 < n -> 0 < h -> 0 < w -> h * w = 3600 ->
  exists cf df y,
    _AttentionGeneration.forward
      (_PointwiseSpatialAttention.collect_attention
         (_PointwiseSpatialAttention.__init__ 2048 3600 wc wdist)) e x = Ok cf
    /\ _AttentionGeneration.forward
         (_PointwiseSpatialAttention.distribute_attention
            (_PointwiseSpatialAttention.__init__ 2048 3600 wc wdist)) e x
       = Ok df
    /\ torch.cat [cf; df] 1 = Ok y
    /\ _PointwiseSpatialAttention.forward
         (_PointwiseSpatialAttention.__init__ 2048 3600 wc wdist) e x = Ok y
    /\ shape y = [n; 2 * 512; h; w]
    /\ (forall bi c yy xx,
          0 <= c < 2 * 512 -> 0 <= yy < h -> 0 <= xx < w ->
          get4 y bi c yy xx
          = if c <? 512 then get4 cf bi c yy xx
            else get4 df bi (c - 512) yy xx)
    /\ (forall wdist',
          _AttentionGeneration.forward
            (_PointwiseSpatialAttention.collect_attention
               (_PointwiseSpatialAttention.__init__ 2048 3600 wc wdist'))
            e x = Ok cf)
    /\ (forall wc',
          _AttentionGeneration.forward
            (_PointwiseSpatialAttention.distribute_attention
               (_PointwiseSpatialAttention.__init__ 2048 3600 wc' wdist))
            e x = Ok df)
    /\ (forall wdist' y' bi c yy xx,
          _PointwiseSpatialAttention.forward
            (_PointwiseSpatialAttention.__init__ 2048 3600 wc wdist') e x
          = Ok y' ->
          0 <= c < 512 -> 0 <= yy < h -> 0 <= xx < w ->
          get4 y' bi c yy xx = get4 y bi c yy xx)
    /\ (forall wc' y' bi c yy xx,
          _PointwiseSpatialAttention.forward
            (_PointwiseSpatialAttention.__init__ 2048 3600 wc' wdist) e x
          = Ok y' ->
          512 <= c < 2 * 512 -> 0 <= yy < h -> 0 <= xx < w ->
          get4 y' bi c yy xx = get4 y bi c yy xx).
Proof.
  intros Hs Hn Hh Hw Hpos.
  destruct (PSA_forward_ok 2048 3600 wc wdist e x n h w Hs)
    as (cf & df & y & Hcf & Hscf & Hdf & Hsdf & Hy & Hfwd & Hsy & Hval);
    try lia.
  exists cf, df, y.
  split; [exact Hcf|]. split; [exact Hdf|]. split; [exact Hy|].
  split; [exact Hfwd|]. split; [exact Hsy|]. split; [exact Hval|].
  split; [intros wdist'; exact Hcf|]. split; [intros wc'; exact Hdf|].
  split.
  - intros wdist' y' bi c yy xx Hfwd' Hc Hyy Hxx.
    destruct (PSA_forward_ok 2048 3600 wc wdist' e x n h w Hs)
      as (cf' & df' & y2 & Hcf' & _ & _ & _ & _ & Hfwd2 & _ & Hval');
      try lia.
    rewrite Hfwd' in Hfwd2. injection Hfwd2 as <-.
    rewrite Hcf in Hcf'. injection Hcf' as <-.
    rewrite Hval, Hval' by lia.
    rewrite (proj2 (Z.ltb_lt c 512)) by lia. reflexivity.
  - intros wc' y' bi c yy xx Hfwd' Hc Hyy Hxx.
    destruct (PSA_forward_ok 2048 3600 wc' wdist e x n h w Hs)
      as (cf' & df' & y2 & _ & _ & Hdf' & _ & _ & Hfwd2 & _ & Hval');
      try lia.
    rewrite Hfwd' in Hfwd2. injection Hfwd2 as <-.
    rewrite Hdf in Hdf'. injection Hdf' as <-.
    rewrite Hval, Hval' by lia.
    rewrite (proj2 (Z.ltb_ge c 512)) by lia. reflexivity.
Qed.

(** Witness of C5: the attention module of the head on a 60 x 60 map. *)
Lemma PointwiseSpatialAttention_forward_concatenates_witness :
  exists y,
    _PointwiseSpatialAttention.forward
      (_PointwiseSpatialAttention.__init__ 2048 3600
         zero_attention_params zero_attention_params)
      train_env (zeros [1; 2048; 60; 60]) = Ok y
    /\ shape y = [1; 2 * 512; 60; 60].
Proof.
  destruct (PointwiseSpatialAttention_forward_concatenates
              zero_attention_params zero_attention_params train_env
              (zeros [1; 2048; 60; 60]) 1 60 60
              eq_refl ltac:(lia) ltac:(lia) ltac:(lia) eq_refl)
    as (cf & df & y & _ & _ & _ & Hfwd & Hsy & _).
  exists y. split; [exact Hfwd | exact Hsy].
Defined.

(** ** The segmentation head *)

Lemma PSAHead_forward_projected (nclass : Z) (hw : head_params) (e : env)
    (x : tensor) (n h w : Z) :
  shape x = [n; 2048; h; w] ->
  0 < n -> 0 < h -> 0 < w -> h * w = 3600 ->
  exists g f c p,
    _PointwiseSpatialAttention.forward
      (_PSAHead.psa (_PSAHead.__init__ nclass hw)) e x = Ok g
    /\ shape g = [n; 1024; h; w]
    /\ _ConvBNReLU_forward (_PSAHead.conv_post (_PSAHead.__init__ nclass hw))
         (training e) g = Ok f
    /\ shape f = [n; 2048; h; w]
    /\ torch.cat [x; f] 1 = Ok c
    /\ shape c = [n; 4096; h; w]
    /\ _ConvBNReLU_forward
         (fst (fst (_PSAHead.project (_PSAHead.__init__ nclass hw))))
         (training e) c = Ok p
    /\ shape p = [n; 512; h; w]
    /\ shape (nn.Dropout2d_forward
                (snd (fst (_PSAHead.project (_PSAHead.__init__ nclass hw))))
                (training e) (drop_head e) p) = [n; 512; h; w]
    /\ _PSAHead.forward (_PSAHead.__init__ nclass hw) e x
       = nn.Conv2d_forward
           (snd (_PSAHead.project (_PSAHead.__init__ nclass hw)))
           (nn.Dropout2d_forward
              (snd (fst (_PSAHead.project (_PSAHead.__init__ nclass hw))))
              (training e) (drop_head e) p).
Proof.
  intros Hs Hn Hh Hw Hpos.
  destruct (PSA_forward_ok 2048 3600 (collect_params hw)
              (distribute_params hw) e x n h w Hs)
    as (cf & df & g & _ & _ & _ & _ & _ & Hg & Hsg & _); try lia.
  pose proof (ConvBNReLU_forward_ok
                (mk_ConvBNReLU 1024 2048 1 0 (conv_post_fn hw))
                (training e) g n h w Hsg) as Hf.
  cbn [cbr_in cbr_out cbr_kernel cbr_padding cbr_fn] in Hf.
  rewrite !kernel1_extent in Hf.
  set (f := mkTensor [n; 2048; h; w] (conv_post_fn hw (training e) g)) in *.
  destruct (cat_channels x f n 2048 2048 h w Hs eq_refl)
    as (c & Hc & Hsc & _).
  change (2048 + 2048) with 4096 in Hsc.
  pose proof (ConvBNReLU_forward_ok
                (mk_ConvBNReLU 4096 512 3 1 (project_fn hw))
                (training e) c n h w Hsc) as Hp.
  cbn [cbr_in cbr_out cbr_kernel cbr_padding cbr_fn] in Hp.
  rewrite !kernel3_extent in Hp.
  set (p := mkTensor [n; 512; h; w] (project_fn hw (training e) c)) in *.
  set (drop := nn.mkDropout2d (1 / 10)%R false).
  assert (Hsd : shape (nn.Dropout2d_forward drop (training e) (drop_head e) p)
                = [n; 512; h; w])
    by (rewrite Dropout2d_forward_shape; reflexivity).
  exists g, f, c, p.
  split; [exact Hg|]. split; [exact Hsg|]. split; [exact Hf|].
  split; [reflexivity|]. split; [exact Hc|]. split; [exact Hsc|].
  split; [exact Hp|]. split; [reflexivity|]. split; [exact Hsd|].
  unfold _PSAHead.forward.
  change (_PSAHead.psa (_PSAHead.__init__ nclass hw))
    with (_PointwiseSpatialAttention.__init__ 2048 3600
            (collect_params hw) (distribute_params hw)).
  rewrite Hg. cbn [bind].
  change (_PSAHead.conv_post (_PSAHead.__init__ nclass hw))
    with (mk_ConvBNReLU 1024 2048 1 0 (conv_post_fn hw)).
  rewrite Hf. cbn [bind]. rewrite Hc. cbn [bind].
  unfold _PSAHead.project_forward.
  cbn [_PSAHead.__init__ _PSAHead.project fst snd].
  rewrite Hp. cbn [bind]. fold drop.
  destruct (nn.Conv2d_forward _ _); reflexivity.
Qed.

Lemma PSAHead_forward_ok (nclass : Z) (hw : head_params) (e : env)
    (x : tensor) (n h w : Z) :
  0 < nclass ->
  shape x = [n; 2048; h; w] ->
  0 < n -> 0 < h -> 0 < w -> h * w = 3600 ->
  exists g f c p out,
    _PointwiseSpatialAttention.forward
      (_PSAHead.psa (_PSAHead.__init__ nclass hw)) e x = Ok g
    /\ shape g = [n; 1024; h; w]
    /\ _ConvBNReLU_forward (_PSAHead.conv_post (_PSAHead.__init__ nclass hw))
         (training e) g = Ok f
    /\ shape f = [n; 2048; h; w]
    /\ torch.cat [x; f] 1 = Ok c
    /\ shape c = [n; 4096; h; w]
    /\ _ConvBNReLU_forward
         (fst (fst (_PSAHead.project (_PSAHead.__init__ nclass hw))))
         (training e) c = Ok p
    /\ shape p = [n; 512; h; w]
    /\ shape (nn.Dropout2d_forward
                (snd (fst (_PSAHead.project (_PSAHead.__init__ nclass hw))))
                (training e) (drop_head e) p) = [n; 512; h; w]
    /\ nn.Conv2d_forward
         (snd (_PSAHead.project (_PSAHead.__init__ nclass hw)))
         (nn.Dropout2d_forward
            (snd (fst (_PSAHead.project (_PSAHead.__init__ nclass hw))))
            (training e) (drop_head e) p) = Ok out
    /\ shape out = [n; nclass; h; w]
    /\ _PSAHead.forward (_PSAHead.__init__ nclass hw) e x = Ok out.
Proof.
  intros Hnc Hs Hn Hh Hw Hpos.
  destruct (PSAHead_forward_projected nclass hw e x n h w Hs Hn Hh Hw Hpos)
    as (g & f & c & p & Hg & Hsg & Hf & Hsf & Hc & Hsc & Hp & Hsp & Hsd
        & Hfwd).
  destruct (Conv2d_forward_ok
              (snd (_PSAHead.project (_PSAHead.__init__ nclass hw)))
              (nn.Dropout2d_forward
                 (snd (fst (_PSAHead.project (_PSAHead.__init__ nclass hw))))
                 (training e) (drop_head e) p)
              n h w Hnc Hsd) as (out & Hout & Hsout).
  exists g, f, c, p, out. rewrite Hfwd. repeat (split; [assumption|]).
  exact Hout.
Qed.

(** What the 1x1 convolution computes, read on the grid. *)
Lemma Conv2d_forward_entry (l : nn.Conv2d) (x y : tensor)
    (n h w b oc yy xx : Z) :
  shape x = [n; nn.in_channels l; h; w] ->
  nn.Conv2d_forward l x = Ok y ->
  0 <= oc < nn.out_channels l -> 0 <= yy < h -> 0 <= xx < w ->
  get4 y b oc yy xx
  = ((match nn.bias l with Some bv => bv oc | None => 0 end)
     + sumZ (nn.in_channels l)
         (fun i => nn.weight l oc i * get4 x b i yy xx))%R.
Proof.
  intros Hs Hy Hoc Hyy Hxx. unfold nn.Conv2d_forward in Hy.
  destruct (nn.out_channels l <? 1); [discriminate|].
  rewrite Hs, Z.eqb_refl in Hy. injection Hy as <-.
  pose proof (flat_position_range yy xx h w Hyy Hxx) as Hj.
  unfold get4 at 1. cbn [shape data]. unfold nn.Conv2d_entry.
  replace (((b * nn.out_channels l + oc) * h + yy) * w + xx)
    with ((b * nn.out_channels l + oc) * (h * w) + (yy * w + xx)) by ring.
  rewrite decode_outer, decode_mid, decode_last by assumption.
  f_equal. apply sumZ_ext. intros i _. f_equal.
  unfold get4. rewrite Hs. f_equal. ring.
Qed.

(** What dropout does to a (N, C, H, W) map in training mode. *)
Lemma Dropout2d_forward_training_entry (l : nn.Dropout2d)
    (mask : Z -> bool) (x : tensor) (n c h w b ch yy xx : Z) :
  shape x = [n; c; h; w] ->
  0 <= yy < h -> 0 <= xx < w ->
  get4 (nn.Dropout2d_forward l true mask x) b ch yy xx
  = if mask (b * c + ch)
    then (get4 x b ch yy xx / (1 - nn.p l))%R
    else 0%R.
Proof.
  intros Hs Hyy Hxx.
  pose proof (flat_position_range yy xx h w Hyy Hxx) as Hj.
  unfold nn.Dropout2d_forward, get4. cbn [shape data]. rewrite Hs.
  cbn [skipn prod fold_right]. rewrite Z.mul_1_r.
  replace (((b * c + ch) * h + yy) * w + xx)
    with ((b * c + ch) * (h * w) + (yy * w + xx)) by ring.
  rewrite decode_div by assumption. reflexivity.
Qed.

(** C6: [_PSAHead.forward] computes the point-wise spatial attention
    output, fuses it back to 2048 channels with [conv_post], concatenates
    it with the original input along the channel axis, projects with the
    3x3 convolution block, applies dropout with p = 0.1, and finishes
    with the 1x1 convolution to nclass channels.  Given the 2048-channel
    backbone feature map (on the 3600 positions the attention expects)
    and at least one class, every stage returns, with 1024, 2048, 4096,
    512, 512 and nclass channels in turn; the dropout is the identity in
    evaluation mode and, in training mode, zeroes the channels the draw
    drops and divides the others by 1 - 0.1; every score is the bias of
    its class plus the weighted sum of the 512 dropped-out features at
    the same position. *)
Theorem PSAHead_forward_pipeline (nclass : Z) (hw : head_params) (e : env)
    (x : tensor) :
  let self := _PSAHead.__init__ nclass hw in
  let '(conv3x3, dropout, conv1x1) := _PSAHead.project self in
  cbr_kernel conv3x3 = 3 /\ cbr_padding conv3x3 = 1
  /\ nn.p dropout = (1 / 10)%R
  /\ _PSAHead.forward self e x
     = (global_feature <-
          _PointwiseSpatialAttention.forward (_PSAHead.psa self) e x ;;
        fused <- _ConvBNReLU_forward (_PSAHead.conv_post self) (training e)
                   global_feature ;;
        both <- torch.cat [x; fused] 1 ;;
        projected <- _ConvBNReLU_forward conv3x3 (training e) both ;;
        nn.Conv2d_forward conv1x1
          (nn.Dropout2d_forward dropout (training e) (drop_head e)
             projected))
  /\ forall n h w,
      0 < nclass ->
      shape x = [n; 2048; h; w] ->
      0 < n -> 0 < h -> 0 < w -> h * w = 3600 ->
      exists global_feature fused both projected dropped out,
        _PointwiseSpatialAttention.forward (_PSAHead.psa self) e x
        = Ok global_feature
        /\ shape global_feature = [n; 1024; h; w]
        /\ _ConvBNReLU_forward (_PSAHead.conv_post self) (training e)
             global_feature = Ok fused
        /\ shape fused = [n; 2048; h; w]
        /\ torch.cat [x; fused] 1 = Ok both
        /\ shape both = [n; 4096; h; w]
        /\ _ConvBNReLU_forward conv3x3 (training e) both = Ok projected
        /\ shape projected = [n; 512; h; w]
        /\ dropped
           = nn.Dropout2d_forward dropout (training e) (drop_head e)
               projected
        /\ shape dropped = [n; 512; h; w]
        /\ (training e = false -> dropped = projected)
        /\ (training e = true ->
            forall b c y x',
              0 <= y < h -> 0 <= x' < w ->
              get4 dropped b c y x'
              = if drop_head e (b * 512 + c)
                then (get4 projected b c y x' / (1 - 1 / 10))%R
                else 0%R)
        /\ nn.Conv2d_forward conv1x1 dropped = Ok out
        /\ shape out = [n; nclass; h; w]
        /\ (forall b c y x',
              0 <= c < nclass -> 0 <= y < h -> 0 <= x' < w ->
              get4 out b c y x'
              = (classifier_bias hw c
                 + sumZ 512 (fun i =>
                     classifier_weight hw c i * get4 dropped b i y x'))%R)
        /\ _PSAHead.forward self e x = Ok out.
Proof.
  cbn zeta. cbn [_PSAHead.__init__ _PSAHead.project].
  split; [reflexivity|]. split; [reflexivity|]. split; [reflexivity|].
  split.
  - unfold _PSAHead.forward, _PSAHead.project_forward.
    cbn [_PSAHead.__init__ _PSAHead.psa _PSAHead.conv_post
         _PSAHead.project].
    destruct (_PointwiseSpatialAttention.forward _ e x) as [g|err];
      cbn [bind]; [|reflexivity].
    destruct (_ConvBNReLU_forward _ (training e) g) as [f|err];
      cbn [bind]; [|reflexivity].
    destruct (torch.cat [x; f] 1) as [c|err]; cbn [bind]; [|reflexivity].
    destruct (_ConvBNReLU_forward _ (training e) c) as [p|err];
      cbn [bind]; [|reflexivity].
    destruct (nn.Conv2d_forward _ _); reflexivity.
  - intros n h w Hnc Hs Hn Hh Hw Hpos.
    destruct (PSAHead_forward_ok nclass hw e x n h w Hnc Hs Hn Hh Hw Hpos)
      as (g & f & c & p & out & Hg & Hsg & Hf & Hsf & Hc & Hsc & Hp & Hsp
          & Hsd & Hout & Hsout & Hfwd).
    cbn [_PSAHead.__init__ _PSAHead.project fst snd] in Hp, Hsd, Hout.
    exists g, f, c, p,
      (nn.Dropout2d_forward (nn.mkDropout2d (1 / 10) false) (training e)
         (drop_head e) p), out.
    split; [exact Hg|]. split; [exact Hsg|]. split; [exact Hf|].
    split; [exact Hsf|]. split; [exact Hc|]. split; [exact Hsc|].
    split; [exact Hp|]. split; [exact Hsp|]. split; [reflexivity|].
    split; [exact Hsd|].
    split; [intros Htr; rewrite Htr; reflexivity|].
    split.
    { intros Htr b ch y x' Hy Hx. rewrite Htr.
      rewrite (Dropout2d_forward_training_entry _ _ p n 512 h w); auto. }
    split; [exact Hout|]. split; [exact Hsout|].
    split; [|exact Hfwd].
    intros b cls y x' Hcls Hy Hx.
    apply (Conv2d_forward_entry
             (nn.mkConv2d 512 nclass (classifier_weight hw)
                (Some (classifier_bias hw)))
             _ out n h w b cls y x' Hsd Hout Hcls Hy Hx).
Qed.

(** Witness of C6: a 60 x 60 map, 21 classes, training mode. *)
Lemma PSAHead_forward_pipeline_witness :
  exists out,
    _PSAHead.forward (_PSAHead.__init__ 21 zero_head_params) train_env
      (zeros [1; 2048; 60; 60]) = Ok out
    /\ shape out = [1; 21; 60; 60].
Proof.
  destruct (PSAHead_forward_pipeline 21 zero_head_params train_env
              (zeros [1; 2048; 60; 60]))
    as (_ & _ & _ & _ & Hok).
  destruct (Hok 1 60 60 ltac:(lia) eq_refl ltac:(lia) ltac:(lia) ltac:(lia)
              eq_refl)
    as (g & f & c & p & d & out & H).
  exists out. split; apply H.
Defined.

(** ** Bilinear upsampling with aligned corners *)

Lemma interpolate_aligned_corners (t y : tensor) (n c ih iw oh ow b ch : Z) :
  shape t = [n; c; ih; iw] ->
  0 < ih -> 0 < iw -> 1 < oh -> 1 < ow ->
  F.interpolate t [oh; ow] true = Ok y ->
  get4 y b ch 0 0 = get4 t b ch 0 0
  /\ get4 y b ch (oh - 1) (ow - 1) = get4 t b ch (ih - 1) (iw - 1).
Proof.
  intros Hs Hih Hiw Hoh How Hy. unfold F.interpolate in Hy.
  rewrite Hs in Hy.
  rewrite (proj2 (Z.ltb_lt 0 ih)), (proj2 (Z.ltb_lt 0 iw)),
    (proj2 (Z.ltb_lt 0 oh)), (proj2 (Z.ltb_lt 0 ow)) in Hy by lia.
  cbn [andb] in Hy. injection Hy as <-.
  unfold get4. rewrite Hs. cbn [shape data]. unfold F.src_index.
  rewrite (proj2 (Z.ltb_lt 1 oh)), (proj2 (Z.ltb_lt 1 ow)) by lia.
  split.
  - rewrite (decode_outer (b * c + ch) 0 0 oh ow) by lia.
    rewrite (decode_mid (b * c + ch) 0 0 oh ow) by lia.
    rewrite (decode_last ((b * c + ch) * oh + 0) 0 ow) by lia.
    rewrite !Z.mul_0_l, !Z.div_0_l, !Z.mod_0_l by lia.
    destruct (0 <? ih - 1), (0 <? iw - 1); unfold Rdiv; ring.
  - rewrite (decode_outer (b * c + ch) (oh - 1) (ow - 1) oh ow) by lia.
    rewrite (decode_mid (b * c + ch) (oh - 1) (ow - 1) oh ow) by lia.
    rewrite (decode_last ((b * c + ch) * oh + (oh - 1)) (ow - 1) ow) by lia.
    rewrite (Z.mul_comm (oh - 1) (ih - 1)), (Z.mul_comm (ow - 1) (iw - 1)).
    rewrite !Z.div_mul, !Z.mod_mul by lia.
    rewrite !Z.ltb_irrefl. unfold Rdiv. ring.
Qed.

(** ** The whole network *)

Lemma stride8_backbone_contract (nclass : Z) (aux : bool) (name : string)
    (pre : bool) :
  backbone_contract 8 (SegBaseModel_init zero_params nclass aux name pre).
Proof.
  intros e x n h w Hs _ _ _ _ _.
  unfold base_forward, SegBaseModel_init, zero_params, stride8_backbone.
  cbn [pretrained zoo]. rewrite Hs. cbn [Z.eqb Pos.eqb].
  do 4 eexists. split; [reflexivity|]. split; reflexivity.
Qed.

Lemma quotient_grid_positive (h w s : Z) :
  0 < h -> 0 < w -> 0 < s -> (h / s) * (w / s) = 3600 ->
  0 < h / s /\ 0 < w / s.
Proof.
  intros Hh Hw Hs Hpos.
  pose proof (Z.div_pos h s ltac:(lia) Hs).
  pose proof (Z.div_pos w s ltac:(lia) Hs). nia.
Qed.

(** [PSANet.forward] on a model built by [PSANet.__init__], with the
    list of outputs resolved. *)
Lemma PSANet_forward_unfold (theta : params) (nclass : Z) (name : string)
    (with_aux pre : bool) (e : env) (x : tensor) :
  PSANet.forward (PSANet.__init__ theta nclass name with_aux pre) e x
  = ('(_, _, c3, c4) <- zoo theta name pre (training e) x ;;
     y <- _PSAHead.forward (_PSAHead.__init__ nclass (head_p theta)) e c4 ;;
     p <- F.interpolate y (skipn 2 (shape x)) true ;;
     if with_aux
     then z <- _FCNHead_forward
                 (mk_FCNHead 1024 nclass (aux_fn theta)) e c3 ;;
          a <- F.interpolate z (skipn 2 (shape x)) true ;;
          Ok (Tuple [p; a])
     else Ok (Single p)).
Proof.
  unfold PSANet.forward, base_forward.
  cbn [PSANet.__init__ PSANet.base PSANet.head SegBaseModel_init
       pretrained aux].
  destruct (zoo theta name pre (training e) x) as [[[[c1 c2] c3] c4]|err];
    cbn [bind]; [|reflexivity].
  destruct (_PSAHead.forward (_PSAHead.__init__ nclass (head_p theta)) e c4)
    as [y|err]; cbn [bind]; [|reflexivity].
  destruct (F.interpolate y (skipn 2 (shape x)) true) as [p|err];
    cbn [bind]; [|reflexivity].
  destruct with_aux; reflexivity.
Qed.

Lemma PSANet_forward_ok (theta : params) (nclass : Z) (name : string)
    (with_aux pre : bool) (e : env) (x : tensor) (n h w s : Z) :
  0 < nclass ->
  backbone_contract s
    (PSANet.base (PSANet.__init__ theta nclass name with_aux pre)) ->
  shape x = [n; 3; h; w] ->
  0 < n -> 0 < h -> 0 < w -> 0 < s ->
  (s | h) -> (s | w) -> (h / s) * (w / s) = 3600 ->
  exists c1 c2 c3 c4 y p,
    base_forward (PSANet.base (PSANet.__init__ theta nclass name with_aux pre))
      e x = Ok (c1, c2, c3, c4)
    /\ _PSAHead.forward
         (PSANet.head (PSANet.__init__ theta nclass name with_aux pre)) e c4
       = Ok y
    /\ F.interpolate y [h; w] true = Ok p
    /\ shape p = [n; nclass; h; w]
    /\ if with_aux
       then exists l z a,
           PSANet.auxlayer (PSANet.__init__ theta nclass name with_aux pre)
           = Some l
           /\ _FCNHead_forward l e c3 = Ok z
           /\ F.interpolate z [h; w] true = Ok a
           /\ shape a = [n; nclass; h; w]
           /\ PSANet.forward (PSANet.__init__ theta nclass name with_aux pre) e x
              = Ok (Tuple [p; a])
       else PSANet.auxlayer (PSANet.__init__ theta nclass name with_aux pre)
            = None
            /\ PSANet.forward (PSANet.__init__ theta nclass name with_aux pre) e x
               = Ok (Single p).
Proof.
  intros Hnc Hbb Hs Hn Hh Hw Hst Hdh Hdw Hpos.
  destruct (quotient_grid_positive h w s Hh Hw Hst Hpos) as [Hqh Hqw].
  destruct (Hbb e x n h w Hs Hn Hh Hw Hdh Hdw)
    as (c1 & c2 & c3 & c4 & Hbase & Hs3 & Hs4).
  destruct (PSAHead_forward_ok nclass (head_p theta) e c4 n (h / s) (w / s)
              Hnc Hs4 Hn Hqh Hqw Hpos)
    as (g & f & c & pj & y & _ & _ & _ & _ & _ & _ & _ & _ & _ & _ & Hsy & Hy).
  destruct (interpolate_ok y n nclass (h / s) (w / s) h w true
              Hsy Hqh Hqw Hh Hw) as (p & Hp & Hsp).
  exists c1, c2, c3, c4, y, p.
  split; [exact Hbase|]. split; [exact Hy|]. split; [exact Hp|].
  split; [exact Hsp|].
  assert (Hpre : forall k : tensor -> result output,
             (y0 <- _PSAHead.forward (_PSAHead.__init__ nclass (head_p theta))
                      e c4 ;;
              x0 <- F.interpolate y0 (skipn 2 (shape x)) true ;; k x0)
             = k p).
  { intros k. rewrite Hy. cbn [bind]. rewrite Hs. cbn [skipn].
    rewrite Hp. reflexivity. }
  destruct with_aux.
  - pose proof (FCNHead_forward_ok (mk_FCNHead 1024 nclass (aux_fn theta))
                  e c3 n (h / s) (w / s) Hs3) as Hz.
    cbn [fcn_channels fcn_fn] in Hz.
    set (z := mkTensor [n; nclass; h / s; w / s]
                (aux_fn theta (training e) (drop_aux e) c3)) in *.
    destruct (interpolate_ok z n nclass (h / s) (w / s) h w true
                eq_refl Hqh Hqw Hh Hw) as (a & Ha & Hsa).
    exists (mk_FCNHead 1024 nclass (aux_fn theta)), z, a.
    split; [reflexivity|]. split; [exact Hz|]. split; [exact Ha|].
    split; [exact Hsa|].
    unfold PSANet.forward. rewrite Hbase. cbn [bind].
    cbn [PSANet.__init__ PSANet.head PSANet.base SegBaseModel_init
         aux].
    rewrite Hpre. unfold PSANet.get_auxlayer.
    cbn [PSANet.__init__ PSANet.auxlayer bind].
    rewrite Hz. cbn [bind]. rewrite Hs. cbn [skipn]. rewrite Ha.
    reflexivity.
  - split; [reflexivity|].
    unfold PSANet.forward. rewrite Hbase. cbn [bind].
    cbn [PSANet.__init__ PSANet.head PSANet.base SegBaseModel_init
         aux].
    rewrite Hpre. reflexivity.
Qed.

(** ** Claims about [PSANet.forward] *)

(** C1, as stated, fails: with a stride-8 backbone, a (1, 3, 224, 224)
    batch has height and width that are multiples of the stride, yet
    [PSANet.forward] raises a shape mismatch (the deepest feature map
    has 28*28 = 784 positions, not 3600) and returns no tensor. *)
Lemma PSANet_rejects_224x224 :
  backbone_contract 8
    (PSANet.base (get_psanet_resnet50 zero_params 21 true false))
  /\ shape (zeros [1; 3; 224; 224]) = [1; 3; 224; 224]
  /\ (8 | 224)
  /\ PSANet.forward (get_psanet_resnet50 zero_params 21 true false)
       eval_env (zeros [1; 3; 224; 224]) = Raise ShapeMismatch
  /\ ~ exists r y,
         PSANet.forward (get_psanet_resnet50 zero_params 21 true false)
           eval_env (zeros [1; 3; 224; 224]) = Ok r
         /\ primary r = Some y
         /\ shape y = [1; 21; 224; 224].
Proof.
  assert (H : PSANet.forward (get_psanet_resnet50 zero_params 21 true false)
                eval_env (zeros [1; 3; 224; 224]) = Raise ShapeMismatch)
    by reflexivity.
  split; [apply stride8_backbone_contract|].
  split; [reflexivity|].
  split; [exists 28; reflexivity|].
  split; [exact H|].
  intros (r & y & Hr & _). rewrite H in Hr. discriminate.
Qed.

(** Without a class the final 1x1 convolution has no output channel and
    the head raises, even on an input the attention accepts. *)
Lemma PSAHead_forward_no_class (nclass : Z) (hw : head_params) (e : env)
    (x : tensor) (n h w : Z) :
  nclass < 1 ->
  shape x = [n; 2048; h; w] ->
  0 < n -> 0 < h -> 0 < w -> h * w = 3600 ->
  _PSAHead.forward (_PSAHead.__init__ nclass hw) e x = Raise ShapeMismatch.
Proof.
  intros Hnc Hs Hn Hh Hw Hpos.
  destruct (PSAHead_forward_projected nclass hw e x n h w Hs Hn Hh Hw Hpos)
    as (g & f & c & p & _ & _ & _ & _ & _ & _ & _ & _ & _ & Hfwd).
  rewrite Hfwd. unfold nn.Conv2d_forward.
  cbn [_PSAHead.__init__ _PSAHead.project snd nn.out_channels].
  rewrite (proj2 (Z.ltb_lt nclass 1) Hnc). reflexivity.
Qed.

(** C1 (amended): for every network with at least one class and every
    input of shape (N, 3, H, W) with N >= 1 and H, W positive multiples
    of the backbone's stride s such that the downsampled grid has
    (H/s)*(W/s) = 3600 positions, [PSANet.forward] returns a primary
    output of shape (N, nclass, H, W). *)
Theorem PSANet_forward_output_shape (theta : params) (nclass : Z)
    (name : string) (with_aux pre : bool) (e : env) (x : tensor)
    (n h w s : Z) :
  0 < nclass ->
  backbone_contract s
    (PSANet.base (PSANet.__init__ theta nclass name with_aux pre)) ->
  shape x = [n; 3; h; w] ->
  0 < n -> 0 < h -> 0 < w -> 0 < s ->
  (s | h) -> (s | w) -> (h / s) * (w / s) = 3600 ->
  exists r y,
    PSANet.forward (PSANet.__init__ theta nclass name with_aux pre) e x
    = Ok r
    /\ primary r = Some y
    /\ shape y = [n; nclass; h; w].
Proof.
  intros Hnc Hbb Hs Hn Hh Hw Hst Hdh Hdw Hpos.
  destruct (PSANet_forward_ok theta nclass name with_aux pre e x n h w s
              Hnc Hbb Hs Hn Hh Hw Hst Hdh Hdw Hpos)
    as (c1 & c2 & c3 & c4 & y & p & _ & _ & _ & Hsp & Hout).
  destruct with_aux.
  - destruct Hout as (l & z & a & _ & _ & _ & _ & Hfwd).
    exists (Tuple [p; a]), p. split; [exact Hfwd|].
    split; [reflexivity | exact Hsp].
  - destruct Hout as (_ & Hfwd).
    exists (Single p), p. split; [exact Hfwd|].
    split; [reflexivity | exact Hsp].
Qed.

(** Witness of C1: a 240 x 960 batch of two images (30 * 120 = 3600
    positions at stride 8), auxiliary head enabled. *)
Lemma PSANet_forward_output_shape_witness :
  exists r y,
    PSANet.forward (PSANet.__init__ zero_params 21 "resnet101" true true)
      train_env (zeros [2; 3; 240; 960]) = Ok r
    /\ primary r = Some y
    /\ shape y = [2; 21; 240; 960].
Proof.
  apply (PSANet_forward_output_shape zero_params 21 "resnet101" true true
           train_env (zeros [2; 3; 240; 960]) 2 240 960 8).
  - lia.
  - apply stride8_backbone_contract.
  - reflexivity.
  - lia.
  - lia.
  - lia.
  - lia.
  - exists 30. reflexivity.
  - exists 120. reflexivity.
  - reflexivity.
Defined.

(** C10: for an input of shape (1, 3, 480, 480) and a model built by
    [get_psanet_resnet50] (resnet50 backbone, a dilated network of
    output stride 8, so that the deepest map is the 60 x 60 grid of the
    specification) for at least one class, [PSANet.forward] yields a
    primary output of shape (1, nclass, 480, 480). *)
Theorem psanet_resnet50_480_output_shape (theta : params) (num_classes : Z)
    (pre with_aux : bool) (e : env) (img : tensor) :
  0 < num_classes ->
  backbone_contract 8
    (PSANet.base (get_psanet_resnet50 theta num_classes pre with_aux)) ->
  shape img = [1; 3; 480; 480] ->
  exists r y,
    PSANet.forward (get_psanet_resnet50 theta num_classes pre with_aux) e img
    = Ok r
    /\ primary r = Some y
    /\ shape y = [1; num_classes; 480; 480].
Proof.
  intros Hnc Hbb Hs.
  unfold get_psanet_resnet50, get_psanet in *.
  destruct (PSANet_forward_ok theta num_classes "resnet50" with_aux pre
              e img 1 480 480 8 Hnc Hbb Hs)
    as (c1 & c2 & c3 & c4 & y & p & _ & _ & _ & Hsp & Hout);
    try lia; try reflexivity;
    try (exists 60; reflexivity).
  destruct with_aux.
  - destruct Hout as (l & z & a & _ & _ & _ & _ & Hfwd).
    exists (Tuple [p; a]), p. split; [exact Hfwd|].
    split; [reflexivity | exact Hsp].
  - destruct Hout as (_ & Hfwd).
    exists (Single p), p. split; [exact Hfwd|].
    split; [reflexivity | exact Hsp].
Qed.

(** Witness of C10: the script of psanet.py (one class, no auxiliary
    head, a fresh module is in training mode). *)
Lemma psanet_resnet50_480_output_shape_witness :
  exists r y,
    main zero_params train_env (zeros [1; 3; 480; 480]) = Ok r
    /\ primary r = Some y
    /\ shape y = [1; 1; 480; 480].
Proof.
  apply (psanet_resnet50_480_output_shape zero_params 1 true false
           train_env (zeros [1; 3; 480; 480])).
  - lia.
  - apply stride8_backbone_contract.
  - reflexivity.
Defined.

(** C7: [PSANet.forward] applies the PSA head to the deepest backbone
    feature map c4 and upsamples the result bilinearly, with aligned
    corners, to the spatial size recorded from the input; with the
    auxiliary flag it also applies the auxiliary head to c3, upsamples
    it the same way and returns the ordered pair (primary, auxiliary);
    without the flag there is no auxiliary layer and the single primary
    tensor is returned.  With at least one class, on the inputs the
    network accepts (N >= 1, H and W positive multiples of the stride,
    3600 positions on the downsampled grid) both branches return
    tensors on the H x W grid, and the upsampling keeps the corner
    values of the head output. *)
Theorem PSANet_forward_heads_and_upsampling (theta : params) (nclass : Z)
    (name : string) (with_aux pre : bool) (e : env) (x : tensor) :
  let self := PSANet.__init__ theta nclass name with_aux pre in
  let size := skipn 2 (shape x) in
  PSANet.forward self e x
  = ('(_, _, c3, c4) <- base_forward (PSANet.base self) e x ;;
     y <- _PSAHead.forward (PSANet.head self) e c4 ;;
     p <- F.interpolate y size true ;;
     if with_aux
     then z <- _FCNHead_forward
                 (mk_FCNHead 1024 nclass (aux_fn theta)) e c3 ;;
          a <- F.interpolate z size true ;;
          Ok (Tuple [p; a])
     else Ok (Single p))
  /\ forall n h w s,
      0 < nclass ->
      backbone_contract s (PSANet.base self) ->
      shape x = [n; 3; h; w] ->
      0 < n -> 0 < h -> 0 < w -> 0 < s ->
      (s | h) -> (s | w) -> (h / s) * (w / s) = 3600 ->
      exists c1 c2 c3 c4 y p,
        size = [h; w]
        /\ base_forward (PSANet.base self) e x = Ok (c1, c2, c3, c4)
        /\ _PSAHead.forward (PSANet.head self) e c4 = Ok y
        /\ shape y = [n; nclass; h / s; w / s]
        /\ F.interpolate y [h; w] true = Ok p
        /\ shape p = [n; nclass; h; w]
        /\ (1 < h -> 1 < w -> forall b c,
              get4 p b c 0 0 = get4 y b c 0 0
              /\ get4 p b c (h - 1) (w - 1)
                 = get4 y b c (h / s - 1) (w / s - 1))
        /\ if with_aux
           then exists l z a,
               PSANet.auxlayer self = Some l
               /\ _FCNHead_forward l e c3 = Ok z
               /\ F.interpolate z [h; w] true = Ok a
               /\ shape a = [n; nclass; h; w]
               /\ PSANet.forward self e x = Ok (Tuple [p; a])
           else PSANet.auxlayer self = None
                /\ PSANet.forward self e x = Ok (Single p).
Proof.
  cbn zeta. split; [exact (PSANet_forward_unfold _ _ _ _ _ _ _)|].
  intros n h w s Hnc Hbb Hs Hn Hh Hw Hst Hdh Hdw Hpos.
  destruct (quotient_grid_positive h w s Hh Hw Hst Hpos) as [Hqh Hqw].
  destruct (PSANet_forward_ok theta nclass name with_aux pre e x n h w s
              Hnc Hbb Hs Hn Hh Hw Hst Hdh Hdw Hpos)
    as (c1 & c2 & c3 & c4 & y & p & Hbase & Hy & Hp & Hsp & Hout).
  assert (Hsy : shape y = [n; nclass; h / s; w / s]).
  { destruct (Hbb e x n h w Hs Hn Hh Hw Hdh Hdw)
      as (d1 & d2 & d3 & d4 & Hbase' & _ & Hs4).
    rewrite Hbase in Hbase'. injection Hbase' as _ _ _ <-.
    destruct (PSAHead_forward_ok nclass (head_p theta) e c4 n (h / s) (w / s)
                Hnc Hs4 Hn Hqh Hqw Hpos)
      as (g & f & c & pj & y' & _ & _ & _ & _ & _ & _ & _ & _ & _ & _
          & Hsy' & Hy').
    change (PSANet.head (PSANet.__init__ theta nclass name with_aux pre))
      with (_PSAHead.__init__ nclass (head_p theta)) in Hy.
    rewrite Hy in Hy'. injection Hy' as <-. exact Hsy'. }
  exists c1, c2, c3, c4, y, p.
  split; [rewrite Hs; reflexivity|].
  split; [exact Hbase|]. split; [exact Hy|]. split; [exact Hsy|].
  split; [exact Hp|]. split; [exact Hsp|].
  split; [|exact Hout].
  intros Hh1 Hw1 b c.
  apply (interpolate_aligned_corners y p n nclass (h / s) (w / s) h w b c
           Hsy Hqh Hqw Hh1 Hw1 Hp).
Qed.

(** Witness of C7: a 480 x 480 image, auxiliary head enabled. *)
Lemma PSANet_forward_heads_and_upsampling_witness :
  exists p a,
    PSANet.forward (PSANet.__init__ zero_params 21 "resnet50" true true)
      eval_env (zeros [1; 3; 480; 480]) = Ok (Tuple [p; a])
    /\ shape p = [1; 21; 480; 480]
    /\ shape a = [1; 21; 480; 480].
Proof.
  destruct (proj2 (PSANet_forward_heads_and_upsampling
                     zero_params 21 "resnet50" true true eval_env
                     (zeros [1; 3; 480; 480]))
              1 480 480 8 ltac:(lia)
              (stride8_backbone_contract 21 true "resnet50" true)
              eq_refl ltac:(lia) ltac:(lia) ltac:(lia) ltac:(lia)
              (ex_intro _ 60 eq_refl) (ex_intro _ 60 eq_refl) eq_refl)
    as (c1 & c2 & c3 & c4 & y & p & _ & _ & _ & _ & _ & Hsp & _ & Hout).
  destruct Hout as (l & z & a & _ & _ & _ & Hsa & Hfwd).
  exists p, a. split; [exact Hfwd|]. split; [exact Hsp | exact Hsa].
Defined.

(** ** Mode and randomness *)

(** The attention branches read the environment only for the mode. *)
Lemma AG_forward_mode_only (ag : _AttentionGeneration.t) (e1 e2 : env)
    (x : tensor) :
  training e1 = training e2 ->
  _AttentionGeneration.forward ag e1 x = _AttentionGeneration.forward ag e2 x.
Proof.
  intros Ht. unfold _AttentionGeneration.forward,
    _AttentionGeneration.attention_forward.
  rewrite Ht. reflexivity.
Qed.

Lemma PSA_forward_mode_only (m : _PointwiseSpatialAttention.t) (e1 e2 : env)
    (x : tensor) :
  training e1 = training e2 ->
  _PointwiseSpatialAttention.forward m e1 x
  = _PointwiseSpatialAttention.forward m e2 x.
Proof.
  intros Ht. unfold _PointwiseSpatialAttention.forward.
  rewrite (AG_forward_mode_only _ e1 e2 x Ht).
  destruct (_AttentionGeneration.forward
              (_PointwiseSpatialAttention.collect_attention m) e2 x);
    cbn [bind]; [|reflexivity].
  rewrite (AG_forward_mode_only _ e1 e2 x Ht). reflexivity.
Qed.

(** In evaluation mode the head ignores the dropout draws. *)
Lemma PSAHead_forward_eval (hd : _PSAHead.t) (e1 e2 : env) (x : tensor) :
  training e1 = false -> training e2 = false ->
  _PSAHead.forward hd e1 x = _PSAHead.forward hd e2 x.
Proof.
  intros H1 H2. unfold _PSAHead.forward.
  rewrite (PSA_forward_mode_only _ e1 e2 x) by congruence.
  unfold _PSAHead.project_forward. rewrite H1, H2.
  destruct (_PSAHead.project hd) as [[conv drop] cls].
  destruct (_PointwiseSpatialAttention.forward (_PSAHead.psa hd) e2 x)
    as [g|err]; cbn [bind]; [|reflexivity].
  destruct (_ConvBNReLU_forward (_PSAHead.conv_post hd) false g) as [f|err];
    cbn [bind]; [|reflexivity].
  destruct (torch.cat [x; f] 1) as [c|err]; cbn [bind]; [|reflexivity].
  destruct (_ConvBNReLU_forward conv false c) as [p|err];
    cbn [bind]; [|reflexivity].
  rewrite !Dropout2d_forward_eval. reflexivity.
Qed.

(** C9: in inference mode [PSANet.forward] is deterministic: with the
    same learned weights and the same input, two forward passes return
    the same output whatever the random draws offered to the dropout
    layers (the auxiliary head, defined outside this file, is assumed to
    ignore its draws in evaluation mode, as dropout does). *)
Theorem PSANet_forward_deterministic_in_eval (m : PSANet.t) (e1 e2 : env)
    (x : tensor) :
  training e1 = false -> training e2 = false ->
  (forall l mask1 mask2 t,
      PSANet.auxlayer m = Some l ->
      fcn_fn l false mask1 t = fcn_fn l false mask2 t) ->
  PSANet.forward m e1 x = PSANet.forward m e2 x.
Proof.
  intros H1 H2 Haux. unfold PSANet.forward, base_forward.
  rewrite H1, H2.
  destruct (pretrained (PSANet.base m) false x) as [[[[c1 c2] c3] c4]|err];
    cbn [bind]; [|reflexivity].
  rewrite (PSAHead_forward_eval (PSANet.head m) e1 e2 c4 H1 H2).
  destruct (_PSAHead.forward (PSANet.head m) e2 c4) as [y|err];
    cbn [bind]; [|reflexivity].
  destruct (F.interpolate y (skipn 2 (shape x)) true) as [p|err];
    cbn [bind]; [|reflexivity].
  destruct (aux (PSANet.base m)); [|reflexivity].
  unfold PSANet.get_auxlayer.
  destruct (PSANet.auxlayer m) as [l|] eqn:Hl; cbn [bind]; [|reflexivity].
  unfold _FCNHead_forward. rewrite H1, H2.
  rewrite (Haux l (drop_aux e1) (drop_aux e2) c3 eq_refl). reflexivity.
Qed.

(** Witness of C9: two evaluation passes offered opposite draws. *)
Lemma PSANet_forward_deterministic_in_eval_witness :
  PSANet.forward (PSANet.__init__ zero_params 21 "resnet50" true true)
    (mkEnv false (fun _ => true) (fun _ => true)) (zeros [1; 3; 480; 480])
  = PSANet.forward (PSANet.__init__ zero_params 21 "resnet50" true true)
      (mkEnv false (fun _ => false) (fun _ => false))
      (zeros [1; 3; 480; 480]).
Proof.
  apply (PSANet_forward_deterministic_in_eval
           (PSANet.__init__ zero_params 21 "resnet50" true true)
           (mkEnv false (fun _ => true) (fun _ => true))
           (mkEnv false (fun _ => false) (fun _ => false))
           (zeros [1; 3; 480; 480])).
  - reflexivity.
  - reflexivity.
  - intros l mask1 mask2 t Hl. injection Hl as <-. reflexivity.
Defined.

(** In training mode the draws do matter: the same dropout layer and
    input give different tensors under different draws. *)
Lemma Dropout2d_training_depends_on_draws :
  data (nn.Dropout2d_forward (nn.mkDropout2d (1 / 10)%R false) true
          (fun _ => true) (mkTensor [1; 1; 1; 1] (fun _ => 1%R))) 0
  <> data (nn.Dropout2d_forward (nn.mkDropout2d (1 / 10)%R false) true
             (fun _ => false) (mkTensor [1; 1; 1; 1] (fun _ => 1%R))) 0.
Proof.
  cbn [nn.Dropout2d_forward data nn.p]. lra.
Qed.

(** ** The auxiliary flag *)

(** C8: for a fixed input and fixed learned weights, the primary output
    of the network built with the auxiliary flag equals the output of
    the network built without it; the flag only turns the single tensor
    into the pair (primary, auxiliary).  Whenever the network with the
    flag returns, the one without returns its first component; whenever
    the one without returns [p] and the auxiliary branch succeeds with
    [a], the one with the flag returns [(p, a)]; and with at least one
    class both return on accepted inputs. *)
Theorem aux_flag_keeps_primary (theta : params) (nclass : Z) (name : string)
    (pre : bool) (e : env) (x : tensor) :
  (forall r,
      PSANet.forward (PSANet.__init__ theta nclass name true pre) e x = Ok r ->
      exists p a,
        r = Tuple [p; a]
        /\ PSANet.forward (PSANet.__init__ theta nclass name false pre) e x
           = Ok (Single p))
  /\ (forall r,
        PSANet.forward (PSANet.__init__ theta nclass name false pre) e x
        = Ok r ->
        exists p,
          r = Single p
          /\ forall c1 c2 c3 c4 a,
              base_forward
                (PSANet.base (PSANet.__init__ theta nclass name true pre))
                e x = Ok (c1, c2, c3, c4) ->
              (z <- _FCNHead_forward
                      (mk_FCNHead 1024 nclass (aux_fn theta)) e c3 ;;
               F.interpolate z (skipn 2 (shape x)) true) = Ok a ->
              PSANet.forward (PSANet.__init__ theta nclass name true pre) e x
              = Ok (Tuple [p; a]))
  /\ (forall n h w s,
        0 < nclass ->
        backbone_contract s
          (PSANet.base (PSANet.__init__ theta nclass name false pre)) ->
        shape x = [n; 3; h; w] ->
        0 < n -> 0 < h -> 0 < w -> 0 < s ->
        (s | h) -> (s | w) -> (h / s) * (w / s) = 3600 ->
        exists p a,
          PSANet.forward (PSANet.__init__ theta nclass name false pre) e x
          = Ok (Single p)
          /\ PSANet.forward (PSANet.__init__ theta nclass name true pre) e x
             = Ok (Tuple [p; a])).
Proof.
  split; [|split].
  - intros r Hon. rewrite PSANet_forward_unfold in *.
    destruct (zoo theta name pre (training e) x) as [[[[c1 c2] c3] c4]|err];
      cbn [bind] in *; [|discriminate].
    destruct (_PSAHead.forward (_PSAHead.__init__ nclass (head_p theta)) e c4)
      as [y|err]; cbn [bind] in *; [|discriminate].
    destruct (F.interpolate y (skipn 2 (shape x)) true) as [p|err];
      cbn [bind] in *; [|discriminate].
    destruct (_FCNHead_forward (mk_FCNHead 1024 nclass (aux_fn theta)) e c3)
      as [z|err]; cbn [bind] in Hon; [|discriminate].
    destruct (F.interpolate z (skipn 2 (shape x)) true) as [a|err];
      cbn [bind] in Hon; [|discriminate].
    injection Hon as <-. exists p, a. split; reflexivity.
  - intros r Hoff. rewrite PSANet_forward_unfold in Hoff.
    unfold base_forward.
    cbn [PSANet.__init__ PSANet.base SegBaseModel_init pretrained].
    destruct (zoo theta name pre (training e) x)
      as [[[[c1 c2] c3] c4]|err] eqn:Hzoo;
      cbn [bind] in Hoff; [|discriminate].
    destruct (_PSAHead.forward (_PSAHead.__init__ nclass (head_p theta)) e c4)
      as [y|err] eqn:Hy; cbn [bind] in Hoff; [|discriminate].
    destruct (F.interpolate y (skipn 2 (shape x)) true) as [p|err] eqn:Hp;
      cbn [bind] in Hoff; [|discriminate].
    injection Hoff as <-. exists p. split; [reflexivity|].
    intros d1 d2 d3 d4 a Hbase Ha. injection Hbase as -> -> -> ->.
    rewrite PSANet_forward_unfold, Hzoo. cbn [bind].
    rewrite Hy. cbn [bind]. rewrite Hp. cbn [bind].
    destruct (_FCNHead_forward (mk_FCNHead 1024 nclass (aux_fn theta)) e d3)
      as [z|err]; cbn [bind] in *; [|discriminate].
    rewrite Ha. reflexivity.
  - intros n h w s Hnc Hbb Hs Hn Hh Hw Hst Hdh Hdw Hpos.
    destruct (PSANet_forward_ok theta nclass name false pre e x n h w s
                Hnc Hbb Hs Hn Hh Hw Hst Hdh Hdw Hpos)
      as (c1 & c2 & c3 & c4 & y & p & Hbase & Hy & Hp & _ & _ & Hoff).
    destruct (PSANet_forward_ok theta nclass name true pre e x n h w s
                Hnc Hbb Hs Hn Hh Hw Hst Hdh Hdw Hpos)
      as (d1 & d2 & d3 & d4 & y' & p' & Hbase' & Hy' & Hp' & _ & Hon).
    destruct Hon as (l & z & a & _ & _ & _ & _ & Hon).
    assert (Hc : c4 = d4).
    { unfold base_forward in Hbase, Hbase'.
      cbn [PSANet.__init__ PSANet.base SegBaseModel_init pretrained]
        in Hbase, Hbase'. congruence. }
    subst d4.
    change (PSANet.head (PSANet.__init__ theta nclass name true pre))
      with (PSANet.head (PSANet.__init__ theta nclass name false pre)) in Hy'.
    assert (y' = y) by congruence. subst y'.
    assert (p' = p) by congruence. subst p'.
    exists p, a. split; [exact Hoff | exact Hon].
Qed.

(** Witness of C8: a 480 x 480 image through both configurations. *)
Lemma aux_flag_keeps_primary_witness :
  exists p a,
    PSANet.forward (PSANet.__init__ zero_params 21 "resnet50" false true)
      train_env (zeros [1; 3; 480; 480]) = Ok (Single p)
    /\ PSANet.forward (PSANet.__init__ zero_params 21 "resnet50" true true)
         train_env (zeros [1; 3; 480; 480]) = Ok (Tuple [p; a]).
Proof.
  apply (proj2 (proj2 (aux_flag_keeps_primary zero_params 21 "resnet50" true
                         train_env (zeros [1; 3; 480; 480])))
           1 480 480 8).
  - lia.
  - apply stride8_backbone_contract.
  - reflexivity.
  - lia.
  - lia.
  - lia.
  - lia.
  - exists 60. reflexivity.
  - exists 60. reflexivity.
  - reflexivity.
Defined.

(** ** Which errors the forward passes can raise *)

Lemma ConvBNReLU_forward_raise (l : _ConvBNReLU) (tr : bool) (x : tensor)
    (err : error) :
  _ConvBNReLU_forward l tr x = Raise err -> err = ShapeMismatch.
Proof.
  unfold _ConvBNReLU_forward.
  destruct (shape x) as [|n [|c [|h [|w [|? ?]]]]]; try congruence.
  destruct (c =? cbr_in l); congruence.
Qed.

Lemma Conv2d_forward_raise (l : nn.Conv2d) (x : tensor) (err : error) :
  nn.Conv2d_forward l x = Raise err -> err = ShapeMismatch.
Proof.
  unfold nn.Conv2d_forward.
  destruct (nn.out_channels l <? 1); [congruence|].
  destruct (shape x) as [|n [|c [|h [|w [|? ?]]]]]; try congruence;
    destruct (_ =? nn.in_channels l); congruence.
Qed.

Lemma ConvBNReLU_forward_rank4 (l : _ConvBNReLU) (tr : bool) (x y : tensor) :
  _ConvBNReLU_forward l tr x = Ok y ->
  exists n h w, shape y = [n; cbr_out l; h; w].
Proof.
  unfold _ConvBNReLU_forward.
  destruct (shape x) as [|n [|c [|h [|w [|? ?]]]]]; try discriminate.
  destruct (c =? cbr_in l); [|discriminate].
  intros [= <-]. eexists _, _, _. reflexivity.
Qed.

(** On a batched input the 1x1 convolution returns a batched output. *)
Lemma Conv2d_forward_rank4 (l : nn.Conv2d) (x y : tensor) (n c h w : Z) :
  shape x = [n; c; h; w] ->
  nn.Conv2d_forward l x = Ok y ->
  shape y = [n; nn.out_channels l; h; w].
Proof.
  intros Hs. unfold nn.Conv2d_forward. rewrite Hs.
  destruct (nn.out_channels l <? 1); [discriminate|].
  destruct (c =? nn.in_channels l); [|discriminate].
  intros [= <-]. reflexivity.
Qed.

Lemma view_raise (t : tensor) (dims : list Z) (err : error) :
  torch.view t dims = Raise err -> err = ShapeMismatch.
Proof.
  unfold torch.view.
  destruct (List.length (filter (fun d => d =? -1) dims)) as [|[|k]].
  - destruct (forallb _ dims && _); congruence.
  - destruct (forallb _ dims && _ && _); congruence.
  - congruence.
Qed.

Lemma view_rank (t t' : tensor) (dims : list Z) :
  torch.view t dims = Ok t' ->
  List.length (shape t') = List.length dims /\ data t' = data t.
Proof.
  unfold torch.view.
  destruct (List.length (filter (fun d => d =? -1) dims)) as [|[|k]].
  - destruct (forallb _ dims && _); [|discriminate].
    intros [= <-]. split; reflexivity.
  - destruct (forallb _ dims && _ && _); [|discriminate].
    intros [= <-]. cbn [shape data]. rewrite length_map. split; reflexivity.
  - discriminate.
Qed.

Lemma bmm_raise (a b : tensor) (err : error) :
  torch.bmm a b = Raise err -> err = ShapeMismatch.
Proof.
  unfold torch.bmm.
  destruct (shape a) as [|ba [|n [|m [|? ?]]]]; try congruence.
  destruct (shape b) as [|bb [|m' [|p [|? ?]]]]; try congruence.
  destruct ((ba =? bb) && (m =? m')); congruence.
Qed.

Lemma cat_pair_raise (a b : tensor) (dim : nat) (err : error) :
  torch.cat [a; b] dim = Raise err -> err = ShapeMismatch.
Proof.
  unfold torch.cat. cbn [fold_left bind]. unfold torch.cat2.
  destruct (_ && _ && _ && _); congruence.
Qed.

Lemma interpolate_raise (t : tensor) (size : list Z) (ac : bool)
    (err : error) :
  F.interpolate t size ac = Raise err -> err = ShapeMismatch.
Proof.
  unfold F.interpolate.
  destruct (shape t) as [|n [|c [|ih [|iw [|? ?]]]]]; try congruence.
  destruct size as [|oh [|ow [|? ?]]]; try congruence.
  destruct (_ && _ && _ && _); congruence.
Qed.

Lemma FCNHead_forward_raise (l : _FCNHead) (e : env) (x : tensor)
    (err : error) :
  _FCNHead_forward l e x = Raise err -> err = ShapeMismatch.
Proof.
  unfold _FCNHead_forward.
  destruct (shape x) as [|n [|c [|h [|w [|? ?]]]]]; try congruence.
  destruct (c =? fcn_in l); congruence.
Qed.

Lemma AG_forward_raise (ag : _AttentionGeneration.t) (e : env) (x : tensor)
    (err : error) :
  _AttentionGeneration.forward ag e x = Raise err -> err = ShapeMismatch.
Proof.
  unfold _AttentionGeneration.forward, _AttentionGeneration.attention_forward.
  destruct (_ConvBNReLU_forward (_AttentionGeneration.conv_reduce ag)
              (training e) x) as [r|e0] eqn:Hr; cbn [bind].
  2:{ intros [= <-]. exact (ConvBNReLU_forward_raise _ _ _ _ Hr). }
  destruct (_ConvBNReLU_forward (fst (_AttentionGeneration.attention ag))
              (training e) r) as [a0|e0] eqn:Ha0; cbn [bind].
  2:{ intros [= <-]. exact (ConvBNReLU_forward_raise _ _ _ _ Ha0). }
  destruct (nn.Conv2d_forward (snd (_AttentionGeneration.attention ag)) a0)
    as [a|e0] eqn:Ha; cbn [bind].
  2:{ intros [= <-]. exact (Conv2d_forward_raise _ _ _ Ha). }
  destruct (ConvBNReLU_forward_rank4 _ _ _ _ Ha0) as (n & h & w & Hsa0).
  pose proof (Conv2d_forward_rank4 _ _ _ _ _ _ _ Hsa0 Ha) as Hsa.
  unfold torch.size4. rewrite Hsa. cbn [bind].
  destruct (torch.view a _) as [a3|e0] eqn:Hv; cbn [bind].
  2:{ intros [= <-]. exact (view_raise _ _ _ Hv). }
  destruct (torch.view r _) as [r3|e0] eqn:Hv2; cbn [bind].
  2:{ intros [= <-]. exact (view_raise _ _ _ Hv2). }
  destruct (view_rank _ _ _ Hv) as [Hlen _].
  unfold torch.softmax. rewrite Hlen. cbn [List.length Nat.ltb Nat.leb bind].
  destruct (torch.bmm r3 _) as [fm|e0] eqn:Hb; cbn [bind].
  2:{ intros [= <-]. exact (bmm_raise _ _ _ Hb). }
  destruct (torch.view fm _) as [fm4|e0] eqn:Hv3; cbn [bind].
  - discriminate.
  - intros [= <-]. exact (view_raise _ _ _ Hv3).
Qed.

Lemma PSA_forward_raise (m : _PointwiseSpatialAttention.t) (e : env)
    (x : tensor) (err : error) :
  _PointwiseSpatialAttention.forward m e x = Raise err ->
  err = ShapeMismatch.
Proof.
  unfold _PointwiseSpatialAttention.forward.
  destruct (_AttentionGeneration.forward
              (_PointwiseSpatialAttention.collect_attention m) e x)
    as [cf|e0] eqn:Hc; cbn [bind].
  2:{ intros [= <-]. exact (AG_forward_raise _ _ _ _ Hc). }
  destruct (_AttentionGeneration.forward
              (_PointwiseSpatialAttention.distribute_attention m) e x)
    as [df|e0] eqn:Hd; cbn [bind].
  2:{ intros [= <-]. exact (AG_forward_raise _ _ _ _ Hd). }
  destruct (torch.cat [cf; df] 1) as [y|e0] eqn:Hy; cbn [bind].
  - discriminate.
  - intros [= <-]. exact (cat_pair_raise _ _ _ _ Hy).
Qed.

Lemma PSAHead_forward_raise (hd : _PSAHead.t) (e : env) (x : tensor)
    (err : error) :
  _PSAHead.forward hd e x = Raise err -> err = ShapeMismatch.
Proof.
  unfold _PSAHead.forward, _PSAHead.project_forward.
  destruct (_PSAHead.project hd) as [[conv drop] cls].
  destruct (_PointwiseSpatialAttention.forward (_PSAHead.psa hd) e x)
    as [g|e0] eqn:Hg; cbn [bind].
  2:{ intros [= <-]. exact (PSA_forward_raise _ _ _ _ Hg). }
  destruct (_ConvBNReLU_forward (_PSAHead.conv_post hd) (training e) g)
    as [f|e0] eqn:Hf; cbn [bind].
  2:{ intros [= <-]. exact (ConvBNReLU_forward_raise _ _ _ _ Hf). }
  destruct (torch.cat [x; f] 1) as [c|e0] eqn:Hc; cbn [bind].
  2:{ intros [= <-]. exact (cat_pair_raise _ _ _ _ Hc). }
  destruct (_ConvBNReLU_forward conv (training e) c) as [p|e0] eqn:Hp;
    cbn [bind].
  2:{ intros [= <-]. exact (ConvBNReLU_forward_raise _ _ _ _ Hp). }
  destruct (nn.Conv2d_forward cls _) as [o|e0] eqn:Ho; cbn [bind].
  - discriminate.
  - intros [= <-]. exact (Conv2d_forward_raise _ _ _ Ho).
Qed.

(** X2: a network built by [PSANet.__init__] never fails on a missing
    [auxlayer] attribute or on [outputs[0]]: an error of
    [PSANet.forward] is either the error raised by the backbone or a
    shape mismatch. *)
Theorem PSANet_forward_error_kinds (theta : params) (nclass : Z)
    (name : string) (with_aux pre : bool) (e : env) (x : tensor)
    (err : error) :
  PSANet.forward (PSANet.__init__ theta nclass name with_aux pre) e x
  = Raise err ->
  base_forward
    (PSANet.base (PSANet.__init__ theta nclass name with_aux pre)) e x
  = Raise err
  \/ err = ShapeMismatch.
Proof.
  rewrite PSANet_forward_unfold. unfold base_forward.
  cbn [PSANet.__init__ PSANet.base SegBaseModel_init pretrained].
  destruct (zoo theta name pre (training e) x) as [[[[c1 c2] c3] c4]|e0];
    cbn [bind]; [|intros H; left; injection H as ->; reflexivity].
  intros H. right.
  destruct (_PSAHead.forward (_PSAHead.__init__ nclass (head_p theta)) e c4)
    as [y|e0] eqn:Hy; cbn [bind] in H.
  2:{ injection H as <-. exact (PSAHead_forward_raise _ _ _ _ Hy). }
  destruct (F.interpolate y (skipn 2 (shape x)) true) as [p|e0] eqn:Hp;
    cbn [bind] in H.
  2:{ injection H as <-. exact (interpolate_raise _ _ _ _ Hp). }
  destruct with_aux; [|discriminate].
  destruct (_FCNHead_forward (mk_FCNHead 1024 nclass (aux_fn theta)) e c3)
    as [z|e0] eqn:Hz; cbn [bind] in H.
  2:{ injection H as <-. exact (FCNHead_forward_raise _ _ _ _ Hz). }
  destruct (F.interpolate z (skipn 2 (shape x)) true) as [a|e0] eqn:Ha;
    cbn [bind] in H; [discriminate|].
  injection H as <-. exact (interpolate_raise _ _ _ _ Ha).
Qed.

(** Witness of X2: a batch of two-channel images, which the stand-in
    backbone itself rejects. *)
Lemma PSANet_forward_error_kinds_witness :
  base_forward
    (PSANet.base (PSANet.__init__ zero_params 21 "resnet50" true true))
    eval_env (zeros [1; 2; 480; 480]) = Raise ShapeMismatch
  \/ ShapeMismatch = ShapeMismatch.
Proof.
  apply (PSANet_forward_error_kinds zero_params 21 "resnet50" true true
           eval_env (zeros [1; 2; 480; 480]) ShapeMismatch).
  reflexivity.
Defined.

(** A model whose [aux] flag is set although no auxiliary layer was
    created (the flag of a network built without it, switched on
    afterwards). *)
Lemma get_auxlayer_missing (m : PSANet.t) :
  PSANet.auxlayer m = None -> PSANet.get_auxlayer m = Raise AttributeError.
Proof. intros H. unfold PSANet.get_auxlayer. rewrite H. reflexivity. Qed.

(** X3: if the [aux] flag of a network is set while it has no
    [auxlayer] (it was built without one), [PSANet.forward] raises an
    AttributeError as soon as the primary branch has succeeded: the
    primary output is computed first and then lost. *)
Theorem PSANet_forward_missing_auxlayer (m : PSANet.t) (e : env) (x : tensor)
    (c1 c2 c3 c4 y p : tensor) :
  aux (PSANet.base m) = true ->
  PSANet.auxlayer m = None ->
  base_forward (PSANet.base m) e x = Ok (c1, c2, c3, c4) ->
  _PSAHead.forward (PSANet.head m) e c4 = Ok y ->
  F.interpolate y (skipn 2 (shape x)) true = Ok p ->
  PSANet.forward m e x = Raise AttributeError.
Proof.
  intros Haux Hnone Hbase Hy Hp. unfold PSANet.forward.
  rewrite Hbase. cbn [bind]. rewrite Hy. cbn [bind]. rewrite Hp. cbn [bind].
  rewrite Haux, (get_auxlayer_missing m Hnone). reflexivity.
Qed.

(** Witness of X3: the stand-in network built without the auxiliary
    layer, with the flag set. *)
Lemma PSANet_forward_missing_auxlayer_witness :
  PSANet.forward
    (PSANet.mk (mkSegBaseModel 21 true "resnet50" stride8_backbone)
       (_PSAHead.__init__ 21 zero_head_params) None ["head"%string])
    eval_env (zeros [1; 3; 480; 480])
  = Raise AttributeError.
Proof.
  destruct (PSAHead_forward_ok 21 zero_head_params eval_env
              (zeros [1; 2048; 60; 60]) 1 60 60
              ltac:(lia) eq_refl ltac:(lia) ltac:(lia) ltac:(lia) eq_refl)
    as (g & f & c & pj & y & _ & _ & _ & _ & _ & _ & _ & _ & _ & _
        & Hsy & Hy).
  destruct (interpolate_ok y 1 21 60 60 480 480 true Hsy
              ltac:(lia) ltac:(lia) ltac:(lia) ltac:(lia)) as (p & Hp & _).
  apply (PSANet_forward_missing_auxlayer
           (PSANet.mk (mkSegBaseModel 21 true "resnet50" stride8_backbone)
              (_PSAHead.__init__ 21 zero_head_params) None ["head"%string])
           eval_env (zeros [1; 3; 480; 480])
           (zeros [1; 256; 120; 120]) (zeros [1; 512; 60; 60])
           (zeros [1; 1024; 60; 60]) (zeros [1; 2048; 60; 60]) y p
           eq_refl eq_refl eq_refl Hy Hp).
Defined.

(** ** Inputs the network rejects *)

Lemma PSAHead_forward_rejects (nclass : Z) (hw : head_params) (e : env)
    (x : tensor) (n h w : Z) :
  shape x = [n; 2048; h; w] ->
  0 < n -> 0 < h -> 0 < w -> h * w <> 3600 ->
  _PSAHead.forward (_PSAHead.__init__ nclass hw) e x = Raise ShapeMismatch.
Proof.
  intros Hs Hn Hh Hw Hpos. unfold _PSAHead.forward.
  change (_PSAHead.psa (_PSAHead.__init__ nclass hw))
    with (_PointwiseSpatialAttention.__init__ 2048 3600
            (collect_params hw) (distribute_params hw)).
  rewrite (PSA_forward_rejects 2048 3600 _ _ e x n h w Hs); try lia.
  reflexivity.
Qed.

Lemma quotient_positive (h s : Z) : 0 < h -> 0 < s -> (s | h) -> 0 < h / s.
Proof.
  intros Hh Hs [k ->]. rewrite Z.div_mul by lia. nia.
Qed.

(** X4: with a backbone of stride s, every non-empty batch whose height
    and width are positive multiples of s but whose downsampled grid
    does not have exactly 3600 positions is rejected by
    [PSANet.forward] with a shape mismatch, with or without the
    auxiliary head and in either mode. *)
Theorem PSANet_forward_rejects_other_grids (theta : params) (nclass : Z)
    (name : string) (with_aux pre : bool) (e : env) (x : tensor)
    (n h w s : Z) :
  backbone_contract s
    (PSANet.base (PSANet.__init__ theta nclass name with_aux pre)) ->
  shape x = [n; 3; h; w] ->
  0 < n -> 0 < h -> 0 < w -> 0 < s ->
  (s | h) -> (s | w) -> (h / s) * (w / s) <> 3600 ->
  PSANet.forward (PSANet.__init__ theta nclass name with_aux pre) e x
  = Raise ShapeMismatch.
Proof.
  intros Hbb Hs Hn Hh Hw Hst Hdh Hdw Hpos.
  destruct (Hbb e x n h w Hs Hn Hh Hw Hdh Hdw)
    as (c1 & c2 & c3 & c4 & Hbase & _ & Hs4).
  unfold PSANet.forward. rewrite Hbase. cbn [bind].
  change (PSANet.head (PSANet.__init__ theta nclass name with_aux pre))
    with (_PSAHead.__init__ nclass (head_p theta)).
  rewrite (PSAHead_forward_rejects nclass (head_p theta) e c4 n
             (h / s) (w / s) Hs4 Hn
             (quotient_positive h s Hh Hst Hdh)
             (quotient_positive w s Hw Hst Hdw) Hpos).
  reflexivity.
Qed.

(** Witness of X4: a 512 x 512 batch at stride 8 (64 * 64 positions). *)
Lemma PSANet_forward_rejects_other_grids_witness :
  PSANet.forward (PSANet.__init__ zero_params 21 "resnet50" true true)
    train_env (zeros [4; 3; 512; 512]) = Raise ShapeMismatch.
Proof.
  apply (PSANet_forward_rejects_other_grids zero_params 21 "resnet50"
           true true train_env (zeros [4; 3; 512; 512]) 4 512 512 8).
  - apply stride8_backbone_contract.
  - reflexivity.
  - lia.
  - lia.
  - lia.
  - lia.
  - exists 64. reflexivity.
  - exists 64. reflexivity.
  - vm_compute. discriminate.
Defined.

(** X5: in evaluation mode an empty batch is rejected by the head even
    on a map with 2048 channels and 3600 positions:
    [attention.view(n, c, -1)] cannot infer its last dimension when
    n = 0. *)
Theorem PSAHead_forward_rejects_empty_batch (nclass : Z) (hw : head_params)
    (e : env) (x : tensor) (h w : Z) :
  training e = false ->
  shape x = [0; 2048; h; w] ->
  _PSAHead.forward (_PSAHead.__init__ nclass hw) e x = Raise ShapeMismatch.
Proof.
  intros _ Hs. unfold _PSAHead.forward, _PointwiseSpatialAttention.forward.
  cbn [_PSAHead.__init__ _PSAHead.psa _PointwiseSpatialAttention.__init__
       _PointwiseSpatialAttention.collect_attention].
  rewrite (AG_forward_empty_batch 2048 512 3600 (collect_params hw) e x h w
             Hs ltac:(lia)).
  reflexivity.
Qed.

(** Witness of X5: no image at all on the 60 x 60 grid. *)
Lemma PSAHead_forward_rejects_empty_batch_witness :
  _PSAHead.forward (_PSAHead.__init__ 21 zero_head_params) eval_env
    (zeros [0; 2048; 60; 60]) = Raise ShapeMismatch.
Proof.
  apply (PSAHead_forward_rejects_empty_batch 21 zero_head_params eval_env
           (zeros [0; 2048; 60; 60]) 60 60).
  - reflexivity.
  - reflexivity.
Defined.

(** ** The weighted feature map, entry by entry *)

Lemma Rsum_const (n : nat) (c : R) :
  Rsum n (fun _ => c) = (INR n * c)%R.
Proof.
  induction n as [|n IH]; [cbn; ring|].
  cbn [Rsum]. rewrite IH, S_INR. ring.
Qed.

(** Every entry of the weighted feature map, written on the grid. *)
Lemma AG_forward_entry (inc red out : Z) (w : attention_params) (e : env)
    (x fm : tensor) (n h wd : Z) :
  shape x = [n; inc; h; wd] ->
  0 < n -> 0 < h -> 0 < wd -> 0 < red -> 0 < out ->
  _AttentionGeneration.forward
    (_AttentionGeneration.__init__ inc red out w) e x = Ok fm ->
  exists r a,
    _ConvBNReLU_forward (mk_ConvBNReLU inc red 1 0 (reduce_fn w))
      (training e) x = Ok r
    /\ shape r = [n; red; h; wd]
    /\ _AttentionGeneration.attention_forward
         (_AttentionGeneration.__init__ inc red out w) e r = Ok a
    /\ shape a = [n; out; h; wd]
    /\ out = h * wd
    /\ shape fm = [n; red; h; wd]
    /\ forall b k y x',
        0 <= k < red -> 0 <= y < h -> 0 <= x' < wd ->
        get4 fm b k y x'
        = sumZ (h * wd)
            (fun i =>
               (get4 r b k (i / wd) (i mod wd)
                * (exp (get4 a b i y x')
                   / sumZ (h * wd) (fun j => exp (get4 a b j y x'))))%R).
Proof.
  intros Hs Hn Hh Hw Hred Hout Hfwd.
  destruct (AG_forward_steps inc red out w e x n h wd Hs)
    as (r & a & s & Hr & Hsr & Ha & Hsa & Hsm & Hss & Heq); try lia.
  rewrite Heq in Hfwd.
  destruct (torch.bmm (mkTensor [n; red; h * wd] (data r)) s) as [fm3|err]
    eqn:Hb; cbn [bind] in Hfwd; [|discriminate].
  injection Hfwd as <-.
  destruct (bmm_inv _ _ _ Hb) as (ba & n' & m & p' & Hba & Hbs & Hfm & _).
  cbn [shape] in Hba. rewrite Hss in Hbs.
  assert (ba = n /\ n' = red /\ m = h * wd /\ out = h * wd /\ p' = h * wd)
    as (-> & -> & -> & -> & ->) by (repeat split; congruence).
  exists r, a. split; [exact Hr|]. split; [exact Hsr|]. split; [exact Ha|].
  split; [exact Hsa|]. split; [reflexivity|]. split; [reflexivity|].
  intros b k y x' Hk Hy Hx.
  pose proof (flat_position_range y x' h wd Hy Hx) as Hj.
  rewrite (get4_unflatten fm3 n red h wd) by exact Hfm.
  rewrite (bmm_entry (mkTensor [n; red; h * wd] (data r)) s fm3
             n red (h * wd) (h * wd) b k (y * wd + x')
             eq_refl Hss Hb Hk Hj).
  apply sumZ_ext. intros i Hi.
  rewrite (get3_flatten r n red h wd) by assumption.
  rewrite (softmax_dim1_entry
             (mkTensor [n; h * wd; h * wd] (data a)) s
             n (h * wd) (h * wd) b i (y * wd + x') eq_refl Hsm Hi Hj).
  rewrite (get3_flatten a n (h * wd) h wd) by assumption.
  rewrite decode_div, decode_last by assumption.
  f_equal. f_equal. apply sumZ_ext. intros j Hjr.
  rewrite (get3_flatten a n (h * wd) h wd) by assumption.
  rewrite decode_div, decode_last by assumption. reflexivity.
Qed.

(** ** Uniform attention *)

Lemma Rsum_zero (n : nat) (f : Z -> R) :
  (forall k, f k = 0%R) -> Rsum n f = 0%R.
Proof.
  intros H. induction n as [|n IH]; cbn [Rsum]; [reflexivity|].
  rewrite IH, H. ring.
Qed.

(** A bias-free 1x1 convolution with zero weights maps to zero. *)
Lemma Conv2d_forward_zero_weight (l : nn.Conv2d) (x y : tensor) :
  (forall o i, nn.weight l o i = 0%R) -> nn.bias l = None ->
  nn.Conv2d_forward l x = Ok y -> forall o, data y o = 0%R.
Proof.
  intros Hw Hb. unfold nn.Conv2d_forward.
  destruct (nn.out_channels l <? 1); [discriminate|].
  destruct (shape x) as [|n [|c [|h [|w [|? ?]]]]]; try discriminate;
    (destruct (_ =? nn.in_channels l); [|discriminate]);
    intros [= <-] o; cbn [data]; unfold nn.Conv2d_entry;
    rewrite Hb; unfold sumZ;
    (rewrite Rsum_zero; [ring|]); intros k; rewrite Hw; ring.
Qed.

(** X8: the attention convolution has no bias, so when its weights are
    zero the attention is uniform and every position of output channel
    k receives the mean of reduced channel k over the grid: the branch
    degenerates to global average pooling. *)
Theorem zero_attention_weights_average_the_grid
    (inc red out : Z) (w : attention_params) (e : env) (x fm r : tensor)
    (n h wd : Z) :
  (forall o i, attention_weight w o i = 0%R) ->
  shape x = [n; inc; h; wd] ->
  0 < n -> 0 < h -> 0 < wd -> 0 < red -> 0 < out ->
  _AttentionGeneration.forward
    (_AttentionGeneration.__init__ inc red out w) e x = Ok fm ->
  _ConvBNReLU_forward
    (_AttentionGeneration.conv_reduce
       (_AttentionGeneration.__init__ inc red out w)) (training e) x = Ok r ->
  forall b k y x',
    0 <= k < red -> 0 <= y < h -> 0 <= x' < wd ->
    get4 fm b k y x'
    = (sumZ (h * wd) (fun i => get4 r b k (i / wd) (i mod wd))
       / IZR (h * wd))%R.
Proof.
  intros Hzero Hs Hn Hh Hw Hred Hout Hfwd Hr b k y x' Hk Hy Hx.
  destruct (AG_forward_entry inc red out w e x fm n h wd
              Hs Hn Hh Hw Hred Hout Hfwd)
    as (r' & a & Hr' & Hsr & Ha & Hsa & Hpos & Hsf & Hentry).
  change (_AttentionGeneration.conv_reduce
            (_AttentionGeneration.__init__ inc red out w))
    with (mk_ConvBNReLU inc red 1 0 (reduce_fn w)) in Hr.
  rewrite Hr in Hr'. injection Hr' as <-.
  assert (Ha0 : forall i yy xx, get4 a b i yy xx = 0%R).
  { intros i yy xx. unfold get4. rewrite Hsa.
    unfold _AttentionGeneration.attention_forward in Ha.
    destruct (_ConvBNReLU_forward _ (training e) r) as [a0|err];
      cbn [bind] in Ha; [|discriminate].
    apply (Conv2d_forward_zero_weight
             (nn.mkConv2d red out (attention_weight w) None) a0 a);
      [exact Hzero | reflexivity | exact Ha]. }
  rewrite (Hentry b k y x' Hk Hy Hx).
  assert (Hgrid : 0 < h * wd) by nia.
  assert (Hden : sumZ (h * wd) (fun j => exp (get4 a b j y x'))
                 = IZR (h * wd)).
  { unfold sumZ.
    rewrite (Rsum_ext _ _ (fun _ => 1%R)).
    - rewrite Rsum_const, INR_IZR_INZ, Z2Nat.id by lia. ring.
    - intros j _. rewrite Ha0. apply exp_0. }
  rewrite Hden.
  rewrite (sumZ_ext (h * wd) _
             (fun i => (get4 r b k (i / wd) (i mod wd)
                        * / IZR (h * wd))%R)).
  - unfold sumZ, Rdiv. apply Rsum_scale.
  - intros i _. rewrite Ha0, exp_0. unfold Rdiv. ring.
Qed.

(** Witness of X8: the zero-initialised branch on a 60 x 60 map. *)
Lemma zero_attention_weights_average_the_grid_witness :
  exists fm,
    _AttentionGeneration.forward
      (_AttentionGeneration.__init__ 2048 512 3600 zero_attention_params)
      eval_env (zeros [1; 2048; 60; 60]) = Ok fm
    /\ get4 fm 0 0 59 59
       = (sumZ (60 * 60) (fun _ => 0) / IZR (60 * 60))%R.
Proof.
  destruct (AG_forward_ok 2048 512 3600 zero_attention_params eval_env
              (zeros [1; 2048; 60; 60]) 1 60 60
              eq_refl ltac:(lia) ltac:(lia) ltac:(lia) ltac:(lia) ltac:(lia)
              eq_refl) as (fm & Hfm & _).
  exists fm. split; [exact Hfm|].
  apply (zero_attention_weights_average_the_grid
           2048 512 3600 zero_attention_params eval_env
           (zeros [1; 2048; 60; 60]) fm
           (mkTensor [1; 512; 60; 60] (fun _ => 0%R)) 1 60 60
           (fun _ _ => eq_refl) eq_refl
           ltac:(lia) ltac:(lia) ltac:(lia) ltac:(lia) ltac:(lia)
           Hfm eq_refl 0 0 59 59 ltac:(lia) ltac:(lia) ltac:(lia)).
Defined.

(** ** Flattening and reshaping *)

(** X9: flattening the grid with [view(n, c, -1)] and reshaping with
    [view(n, c, h, w)] is a round trip: the inferred dimension is h*w
    and the original tensor comes back, storage untouched. *)
Theorem flatten_reshape_round_trip (t : tensor) (n c h w : Z) :
  shape t = [n; c; h; w] ->
  0 < n -> 0 < c -> 0 <= h -> 0 <= w ->
  exists flat,
    torch.view t [n; c; -1] = Ok flat
    /\ shape flat = [n; c; h * w]
    /\ torch.view flat [n; c; h; w] = Ok t.
Proof.
  intros Hs Hn Hc Hh Hw.
  exists (mkTensor [n; c; h * w] (data t)).
  split.
  { apply view_infer_last; try assumption.
    unfold numel. rewrite Hs. cbn [prod fold_right]. ring. }
  split; [reflexivity|].
  rewrite view_rank4; try lia.
  - destruct t as [sh d]. cbn [shape data] in *. subst sh. reflexivity.
  - unfold numel. cbn [shape prod fold_right]. ring.
Qed.

(** Witness of X9: a (2, 512, 60, 60) map. *)
Lemma flatten_reshape_round_trip_witness :
  exists flat,
    torch.view (zeros [2; 512; 60; 60]) [2; 512; -1] = Ok flat
    /\ shape flat = [2; 512; 60 * 60]
    /\ torch.view flat [2; 512; 60; 60] = Ok (zeros [2; 512; 60; 60]).
Proof.
  apply (flatten_reshape_round_trip (zeros [2; 512; 60; 60]) 2 512 60 60);
    [reflexivity | lia | lia | lia | lia].
Defined.

(** ** The skip connection of the head *)

(** X11: the tensor that [_PSAHead.forward] hands to its projection
    keeps the backbone features untouched in channels 0..2047 and
    carries the fused attention features in channels 2048..4095, in
    that order ([torch.cat([x, out], dim=1)]). *)
Theorem head_concatenation_keeps_input (nclass : Z) (hw : head_params)
    (e : env) (x : tensor) (n h w : Z) :
  shape x = [n; 2048; h; w] ->
  0 < n -> 0 < h -> 0 < w -> h * w = 3600 ->
  exists fused both,
    (g <- _PointwiseSpatialAttention.forward
            (_PSAHead.psa (_PSAHead.__init__ nclass hw)) e x ;;
     _ConvBNReLU_forward (_PSAHead.conv_post (_PSAHead.__init__ nclass hw))
       (training e) g) = Ok fused
    /\ torch.cat [x; fused] 1 = Ok both
    /\ _PSAHead.forward (_PSAHead.__init__ nclass hw) e x
       = _PSAHead.project_forward (_PSAHead.__init__ nclass hw) e both
    /\ forall b c y x',
        0 <= c < 4096 -> 0 <= y < h -> 0 <= x' < w ->
        get4 both b c y x'
        = if c <? 2048 then get4 x b c y x'
          else get4 fused b (c - 2048) y x'.
Proof.
  intros Hs Hn Hh Hw Hpos.
  destruct (PSAHead_forward_projected nclass hw e x n h w Hs Hn Hh Hw Hpos)
    as (g & f & c & p & Hg & _ & Hf & Hsf & Hc & _ & _).
  destruct (cat_channels x f n 2048 2048 h w Hs Hsf)
    as (c' & Hc' & _ & Hval).
  rewrite Hc in Hc'. injection Hc' as <-.
  exists f, c. split; [rewrite Hg; cbn [bind]; exact Hf|].
  split; [exact Hc|]. split.
  - unfold _PSAHead.forward. rewrite Hg. cbn [bind]. rewrite Hf.
    cbn [bind]. rewrite Hc. cbn [bind].
    destruct (_PSAHead.project_forward _ e c); reflexivity.
  - intros b ch y x' Hch Hy Hx. apply Hval; lia.
Qed.

(** Witness of X11: the zero head on a 60 x 60 map. *)
Lemma head_concatenation_keeps_input_witness :
  exists both,
    _PSAHead.forward (_PSAHead.__init__ 21 zero_head_params) eval_env
      (zeros [1; 2048; 60; 60])
    = _PSAHead.project_forward (_PSAHead.__init__ 21 zero_head_params)
        eval_env both
    /\ get4 both 0 2047 59 59 = get4 (zeros [1; 2048; 60; 60]) 0 2047 59 59.
Proof.
  destruct (head_concatenation_keeps_input 21 zero_head_params eval_env
              (zeros [1; 2048; 60; 60]) 1 60 60
              eq_refl ltac:(lia) ltac:(lia) ltac:(lia) eq_refl)
    as (fused & both & _ & _ & Hfwd & Hval).
  exists both. split; [exact Hfwd|].
  apply (Hval 0 2047 59 59); lia.
Defined.

(** ** The factory functions *)

(** X12: each of the three factories, called without the auxiliary
    flag, is [get_psanet] at its own backbone name (resnet50, resnet101
    or resnet152 respectively) and builds a network with that backbone,
    with no auxiliary layer and with the head as its only exclusive
    module; with at least one class it returns, on every accepted batch
    (stride-8 backbone, 3600 positions), one tensor of shape
    (N, num_classes, H, W) rather than a tuple. *)
Theorem factories_return_single_tensor (theta : params) (num_classes : Z)
    (pre : bool) (name : string)
    (factory : params -> Z -> bool -> bool -> PSANet.t)
    (e : env) (x : tensor) (n h w : Z) :
  In (name, factory)
     [("resnet50"%string, get_psanet_resnet50);
      ("resnet101"%string, get_psanet_resnet101);
      ("resnet152"%string, get_psanet_resnet152)] ->
  0 < num_classes ->
  backbone_contract 8 (PSANet.base (factory theta num_classes pre false)) ->
  shape x = [n; 3; h; w] ->
  0 < n -> 0 < h -> 0 < w ->
  (8 | h) -> (8 | w) -> (h / 8) * (w / 8) = 3600 ->
  factory theta num_classes pre false
  = get_psanet theta num_classes name pre false
  /\ backbone (PSANet.base (factory theta num_classes pre false)) = name
  /\ PSANet.auxlayer (factory theta num_classes pre false) = None
  /\ PSANet.exclusive (factory theta num_classes pre false)
     = ["head"%string]
  /\ exists y,
      PSANet.forward (factory theta num_classes pre false) e x
      = Ok (Single y)
      /\ shape y = [n; num_classes; h; w].
Proof.
  intros Hin Hnc Hbb Hs Hn Hh Hw Hdh Hdw Hpos.
  assert (Hf : factory theta num_classes pre false
               = PSANet.__init__ theta num_classes name false pre).
  { destruct Hin as [E|[E|[E|[]]]]; injection E as <- <-; reflexivity. }
  rewrite Hf in *.
  split; [reflexivity|]. split; [reflexivity|].
  split; [reflexivity|]. split; [reflexivity|].
  destruct (PSANet_forward_ok theta num_classes name false pre e x n h w 8
              Hnc Hbb Hs Hn Hh Hw ltac:(lia) Hdh Hdw Hpos)
    as (c1 & c2 & c3 & c4 & y & p & _ & _ & _ & Hsp & _ & Hfwd).
  exists p. split; [exact Hfwd | exact Hsp].
Qed.

(** Witness of X12: the resnet152 factory on a 480 x 480 batch of 3. *)
Lemma factories_return_single_tensor_witness :
  backbone (PSANet.base (get_psanet_resnet152 zero_params 19 true false))
  = "resnet152"%string
  /\ exists y,
      PSANet.forward (get_psanet_resnet152 zero_params 19 true false)
        train_env (zeros [3; 3; 480; 480]) = Ok (Single y)
      /\ shape y = [3; 19; 480; 480].
Proof.
  destruct (factories_return_single_tensor zero_params 19 true
              "resnet152" get_psanet_resnet152 train_env
              (zeros [3; 3; 480; 480]) 3 480 480
              (or_intror (or_intror (or_introl eq_refl)))
              ltac:(lia)
              (stride8_backbone_contract 19 false "resnet152" true)
              eq_refl ltac:(lia) ltac:(lia) ltac:(lia)
              (ex_intro _ 60 eq_refl) (ex_intro _ 60 eq_refl) eq_refl)
    as (_ & Hname & _ & _ & Hret).
  split; [exact Hname | exact Hret].
Defined.

(** ** Dropout in training mode *)

(** X13: in training mode, when the draw drops every channel of the
    projected map, nothing of the input reaches the classifier: with at
    least one class, every score of class c equals the bias of the
    final 1x1 convolution for that class, at every position. *)
Theorem head_scores_are_bias_when_all_dropped (nclass : Z)
    (hw : head_params) (e : env) (x : tensor) (n h w : Z) :
  0 < nclass ->
  training e = true ->
  (forall k, drop_head e k = false) ->
  shape x = [n; 2048; h; w] ->
  0 < n -> 0 < h -> 0 < w -> h * w = 3600 ->
  exists out,
    _PSAHead.forward (_PSAHead.__init__ nclass hw) e x = Ok out
    /\ forall b c y x',
        0 <= c < nclass -> 0 <= y < h -> 0 <= x' < w ->
        get4 out b c y x' = classifier_bias hw c.
Proof.
  intros Hnc Htr Hdrop Hs Hn Hh Hw Hpos.
  destruct (PSAHead_forward_ok nclass hw e x n h w Hnc Hs Hn Hh Hw Hpos)
    as (g & f & c & p & out & _ & _ & _ & _ & _ & _ & _ & Hsp & Hsd & Hout
        & Hsout & Hfwd).
  exists out. split; [exact Hfwd|].
  intros b cls y x' Hc Hy Hx.
  cbn [_PSAHead.__init__ _PSAHead.project fst snd] in Hsd, Hout.
  rewrite (Conv2d_forward_entry
             (nn.mkConv2d 512 nclass (classifier_weight hw)
                (Some (classifier_bias hw)))
             _ out n h w b cls y x' Hsd Hout Hc Hy Hx).
  cbn [nn.bias nn.weight nn.in_channels]. unfold sumZ.
  rewrite Rsum_zero; [ring|].
  intros k. rewrite Htr.
  rewrite (Dropout2d_forward_training_entry _ _ p n 512 h w b k y x'
             Hsp Hy Hx).
  rewrite Hdrop. ring.
Qed.

(** Witness of X13: the training environment that drops everything. *)
Lemma head_scores_are_bias_when_all_dropped_witness :
  exists out,
    _PSAHead.forward (_PSAHead.__init__ 21 zero_head_params) train_env
      (zeros [1; 2048; 60; 60]) = Ok out
    /\ forall b c y x',
        0 <= c < 21 -> 0 <= y < 60 -> 0 <= x' < 60 ->
        get4 out b c y x' = classifier_bias zero_head_params c.
Proof.
  apply (head_scores_are_bias_when_all_dropped 21 zero_head_params
           train_env (zeros [1; 2048; 60; 60]) 1 60 60).
  - lia.
  - reflexivity.
  - intros k. reflexivity.
  - reflexivity.
  - lia.
  - lia.
  - lia.
  - reflexivity.
Defined.
